(** * drive-to-lightroomcc: a shallow embedding of the transfer engine

    The Python sources embedded here are
    - [src/auth/adobe_auth.py]  (class [AdobeLightroomAuth]),
    - [src/ui/menus.py]         (classes [GoogleDriveFolderSelector] and
                                 [LightroomAlbumSelector]),
    - [src/sync/logic.py]       (class [SyncLogic]).

    Conventions.
    - A Python [str] is a Rocq [string] holding its UTF-8 bytes; every
      literal the code matches on is ASCII, so byte offsets and code point
      offsets agree wherever the code slices.
    - A method that talks to the outside world is a function in the monad
      [Py.M]: it threads the state of the world, may raise a Python
      exception, and appends the lines it prints to the console.
    - What the outside world answers (HTTP responses, Drive metadata, the
      random UUIDs, the token endpoint) is given by the oracles of a record
      [Env], one per module; an answer may depend on the calls made before
      it.  The theorems quantify over [Env], so they hold for every
      behaviour of the two providers.
    - [datetime.now()] reads a clock that is part of the world and does not
      move while one method runs; [console.print] and [print] always
      succeed. *)

From Stdlib Require Import String Ascii List ZArith Lia Bool Arith.
From Stdlib Require Import Strings.Byte DecimalString.
Import ListNotations.
Open Scope string_scope.
Open Scope list_scope.
Set Warnings "-register-all".

(** String concatenation (Python's [+] on [str] and f-string splicing). *)
Infix "+++" := String.append (at level 60, right associativity).

(* ================================================================== *)
(** * Python strings *)

Module PyStr.

(** [s[n:]] *)
Fixpoint drop (n : nat) (s : string) : string :=
  match n, s with
  | O, _ => s
  | S _, EmptyString => EmptyString
  | S n', String _ s' => drop n' s'
  end.

(** [s.startswith(p)] *)
Definition startswith (s p : string) : bool := String.prefix p s.

(** [p in s] for two strings: [p] occurs in [s] as a substring. *)
Fixpoint contains (p s : string) : bool :=
  String.prefix p s ||
  match s with
  | EmptyString => false
  | String _ s' => contains p s'
  end.

(** [s.replace(c, '')] for a one-character [c]. *)
Fixpoint remove_char (c : ascii) (s : string) : string :=
  match s with
  | EmptyString => EmptyString
  | String a s' =>
      if Ascii.eqb a c then remove_char c s' else String a (remove_char c s')
  end.

(** The ASCII characters for which [str.isspace] holds. *)
Definition is_space (c : ascii) : bool :=
  let n := nat_of_ascii c in
  (((9 <=? n) && (n <=? 13)) || ((28 <=? n) && (n <=? 32)))%nat.

Fixpoint lstrip (s : string) : string :=
  match s with
  | EmptyString => EmptyString
  | String c s' => if is_space c then lstrip s' else s
  end.

Fixpoint rstrip (s : string) : string :=
  match s with
  | EmptyString => EmptyString
  | String c s' =>
      match rstrip s' with
      | EmptyString => if is_space c then EmptyString else String c EmptyString
      | r => String c r
      end
  end.

(** [s.strip()] *)
Definition strip (s : string) : string := rstrip (lstrip s).

(** [s.split(c)[0]]: what stands before the first [c]. *)
Fixpoint before (c : ascii) (s : string) : string :=
  match s with
  | EmptyString => EmptyString
  | String a s' => if Ascii.eqb a c then EmptyString else String a (before c s')
  end.

(** Truth value of a string that may be [None]: [None] and [''] are falsy. *)
Definition truthy (o : option string) : bool :=
  match o with
  | None => false
  | Some s => negb (String.eqb s EmptyString)
  end.

End PyStr.

(* ================================================================== *)
(** * The effect monad: world state, Python exceptions, console output *)

Module Py.

(** The exception classes the code raises or catches.  All of them derive
    from [Exception]; [HTTPError] derives from
    [requests.exceptions.RequestException], and so does the error of
    [response.json()] (requests 2.27 and later). *)
Inductive exn : Type :=
| HTTPError (status : Z) (text : string)  (* raised by [response.raise_for_status()]; carries the response *)
| RequestException              (* any other [requests] failure: connection, timeout, ... *)
| RequestsJSONDecodeError       (* [response.json()] on a body that is not JSON *)
| ValueError (status : Z)       (* [raise ValueError(f"... status {status_code}")] *)
| InvalidIsoFormat              (* the [ValueError] of [datetime.fromisoformat] *)
| KeyError
| AttributeError
| TypeError
| JSONDecodeError               (* [json.loads] / [json.load] *)
| RecursionError                (* the interpreter's stack depth limit *)
| OSError.

Definition is_RequestException (e : exn) : bool :=
  match e with
  | HTTPError _ _ | RequestException | RequestsJSONDecodeError => true
  | _ => false
  end.

Inductive res (A : Type) : Type :=
| Ok (a : A)
| Raise (e : exn).
Arguments Ok {A} a.
Arguments Raise {A} e.

Section Monad.
Context {W Msg : Type}.

(** A computation: from the world before to its outcome, the world after
    and the console lines printed meanwhile. *)
Definition M (A : Type) : Type := W -> res A * W * list Msg.

Definition ret {A} (a : A) : M A := fun w => (Ok a, w, []).

Definition bind {A B} (m : M A) (k : A -> M B) : M B :=
  fun w =>
    match m w with
    | (Ok a, w1, o1) => let '(r, w2, o2) := k a w1 in (r, w2, o1 ++ o2)
    | (Raise e, w1, o1) => (Raise e, w1, o1)
    end.

Definition raise {A} (e : exn) : M A := fun w => (Raise e, w, []).

(** [try: m  except ... as e: h e] *)
Definition try_except {A} (m : M A) (h : exn -> M A) : M A :=
  fun w =>
    match m w with
    | (Ok a, w1, o1) => (Ok a, w1, o1)
    | (Raise e, w1, o1) => let '(r, w2, o2) := h e w1 in (r, w2, o1 ++ o2)
    end.

Definition get : M W := fun w => (Ok w, w, []).

(** [console.print(...)] / [print(...)] *)
Definition print (m : Msg) : M unit := fun w => (Ok tt, w, [m]).

(** [for x in l: body x] *)
Fixpoint for_each {A} (l : list A) (body : A -> M unit) : M unit :=
  match l with
  | [] => ret tt
  | x :: l' => bind (body x) (fun _ => for_each l' body)
  end.

Definition result {A} (x : res A * W * list Msg) : res A := fst (fst x).
Definition world {A} (x : res A * W * list Msg) : W := snd (fst x).
Definition output {A} (x : res A * W * list Msg) : list Msg := snd x.
End Monad.

Arguments M : clear implicits.

(** [d.get(key, default)], the entry of the dict being [None] when the key
    is missing. *)
Definition dict_get {A} (entry : option A) (default : A) : A :=
  match entry with Some v => v | None => default end.

(** [m] returns normally from every world: no exception leaves it. *)
Definition never_raises {W Msg A} (m : M W Msg A) : Prop :=
  forall w, exists a w' o, m w = (Ok a, w', o).



Declare Scope py_scope.
Delimit Scope py_scope with py.
Notation "x <- m ;; k" := (bind m (fun x => k))
  (at level 61, m at next level, right associativity) : py_scope.
Notation "m ;; k" := (bind m (fun _ => k))
  (at level 61, right associativity) : py_scope.

End Py.

(* ================================================================== *)
(** * [AdobeLightroomAuth._strip_adobe_prefix]  (adobe_auth.py, 292-296) *)

Module Strip.

Definition adobe_prefix : string := "while (1) {}".

(** [if raw_response_text.startswith('while (1) {}'):
        return raw_response_text[12:]
    return raw_response_text] *)
Definition _strip_adobe_prefix (raw_response_text : string) : string :=
  if PyStr.startswith raw_response_text "while (1) {}"
  then PyStr.drop 12 raw_response_text
  else raw_response_text.

End Strip.

(* ================================================================== *)
(** * [GoogleDriveFolderSelector.get_folder_path]  (menus.py, 43-64) *)

Module DrivePath.
Import Py.
Local Open Scope py_scope.

(** The dict answered by
    [service.files().get(fileId=..., fields="name, parents").execute()];
    either key may be missing. *)
Record Folder : Type := {
  name : option string;
  parents : option (list string)
}.

(** The Drive service.  The answer may depend on the lookups made so far
    ([None]: the call raises, e.g. an [HttpError] for an id Drive does not
    know). *)
Record Env : Type := {
  files_get : list string -> string -> option Folder
}.

(** The world is the list of file ids looked up so far; nothing is printed. *)
Definition World : Type := list string.
Definition M : Type -> Type := Py.M World Empty_set.

(** [self.service.files().get(fileId=folder_id, ...).execute()] *)
Definition files_get_execute (env : Env) (folder_id : string) : M Folder :=
  fun w =>
    match files_get env w folder_id with
    | Some folder => (Ok folder, w ++ [folder_id], [])
    | None => (Raise OSError, w ++ [folder_id], [])
    end.

(** The source sets no bound on the recursion; the interpreter does.
    [depth] is the number of further nested calls it allows (its recursion
    limit minus the frames in use): a call made when none is left raises
    [RecursionError] at the call site, inside the [try] of the calling
    frame, and [RecursionError] is an [Exception].  (Should the limit be hit
    inside the Drive client instead, that is a lookup that raises.)

    [try:
        if folder_id == 'root':
            return "📁 My Drive"
        folder = self.service.files().get(...).execute()
        folder_name = folder.get('name', 'Unknown')
        parents = folder.get('parents', [])
        if parents and parents[0] != 'root':
            parent_path = self.get_folder_path(parents[0])
            return f"{parent_path} / {folder_name}"
        else:
            return f"📁 My Drive / {folder_name}"
    except Exception as e:
        return f"📁 Unknown Path ({folder_id})"] *)
Fixpoint get_folder_path (env : Env) (depth : nat) (folder_id : string)
  : M string :=
  try_except
    (if String.eqb folder_id "root" then ret "📁 My Drive"
     else
       folder <- files_get_execute env folder_id ;;
       let folder_name := dict_get (name folder) "Unknown" in
       let parents := dict_get (parents folder) [] in
       match parents with
       | p0 :: _ =>
           if negb (String.eqb p0 "root") then
             parent_path <-
               match depth with
               | O => raise RecursionError
               | S depth' => get_folder_path env depth' p0
               end ;;
             ret (parent_path +++ " / " +++ folder_name)
           else ret ("📁 My Drive / " +++ folder_name)
       | [] => ret ("📁 My Drive / " +++ folder_name)
       end)
    (fun e => ret ("📁 Unknown Path (" +++ folder_id +++ ")")).

(** ** Vocabulary for the statements below *)



(** Two folders that are each other's parent. *)
Definition cyclic_env : Env :=
  {| files_get := fun _ folder_id =>
       if String.eqb folder_id "A"
       then Some {| name := Some "a"; parents := Some ["B"] |}
       else Some {| name := Some "b"; parents := Some ["A"] |} |}.

End DrivePath.

(* ================================================================== *)
(** * HTTP as the Adobe client sees it *)

Module Http.

Definition bytes : Type := list byte.

(** The JSON documents the transfer sends. *)
Record CreatePayload : Type := {
  subtype : string;
  captureDate : Z;             (* [datetime.now().isoformat()] *)
  fileName : string;
  importedOnDevice : string;
  importedBy : string;
  importTimestamp : Z          (* [datetime.now().isoformat()] *)
}.

Inductive JsonBody : Type :=
| CreateAsset (p : CreatePayload)
| AddToAlbum (asset_id : string) (cover : bool).

Definition Headers : Type := list (string * option string).

(** The arguments of one [requests.request(method, url, headers=...,
    json=..., data=..., stream=False, params=None)]. *)
Record Request : Type := {
  method : string;
  url : string;
  headers : Headers;
  json : option JsonBody;
  data : option bytes
}.

Record Response : Type := {
  status_code : Z;
  content_type : option string;     (* [response.headers.get('Content-Type')] *)
  text : string
}.

(** What a request comes to: a response, or a [RequestException] of the
    transport (connection refused, timeout, ...). *)
Inductive NetResult : Type :=
| Answer (r : Response)
| NoAnswer.

(** [d[k] = v] on a dict kept in insertion order. *)
Fixpoint dict_set (k : string) (v : option string) (d : Headers) : Headers :=
  match d with
  | [] => [(k, v)]
  | (k', v') :: d' =>
      if String.eqb k' k then (k, v) :: d' else (k', v') :: dict_set k v d'
  end.

(** [d.update(other)] *)
Definition dict_update (d other : Headers) : Headers :=
  fold_left (fun acc kv => dict_set (fst kv) (snd kv) acc) other d.

(** [response.raise_for_status()] of the requests library raises
    [HTTPError] exactly for the statuses 400..599. *)
Definition raises_for_status (status : Z) : bool :=
  ((400 <=? status) && (status <? 600))%Z.

(** [status_code in [201, 200]] *)
Definition created_or_ok (status : Z) : bool :=
  existsb (Z.eqb status) [201%Z; 200%Z].

End Http.

(* ================================================================== *)
(** * [SyncLogic]  (sync/logic.py) and the request client it drives
      ([AdobeLightroomAuth.get_headers], [make_authenticated_request]) *)

Module Sync.
Import Py Http.
Local Open Scope py_scope.

(** One entry of a Drive listing, a dict read with [.get]. *)
Record DriveFile : Type := {
  id : option string;
  name : option string;
  mimeType : option string
}.

(** Calls that leave the process, in the order they were made. *)
Inductive Call : Type :=
| CallAdobe (r : Request)            (* [requests.request] to lr.adobe.io *)
| CallDownload (file_id : string)    (* [files().get_media] and its chunk loop *)
| CallList (folder_id : string).     (* [files().list(...).execute()] *)

(** The two providers and the random source.  Every answer may depend on
    the calls made so far. *)
Record Env : Type := {
  adobe : list Call -> Request -> NetResult;
  (* content of the file, or [None] when the download raises *)
  get_media : list Call -> string -> option bytes;
  (* [None]: the listing raises; [Some files]: the ['files'] entry of the
     result, which may be missing *)
  files_list : list Call -> string -> option (option (list DriveFile));
  (* the n-th [str(uuid.uuid4())] of the run *)
  uuid4 : nat -> string
}.

(** The fields of the [AdobeLightroomAuth] object the transfer reads.
    [account_info] is set by [test_connection] only when it succeeds:
    [None] is the missing attribute, [Some i] the account dict with its
    ['id'] entry [i]. *)
Record AdobeAuth : Type := {
  client_id : option string;
  access_token : option string;
  api_base : string;
  account_info : option (option string)
}.

Record World : Type := {
  net : list Call;        (* calls made so far *)
  minted : nat;           (* asset ids generated so far *)
  clock : Z               (* [datetime.now()] *)
}.

(** The lines written to the console, one constructor per [console.print]. *)
Inductive Msg : Type :=
| ListingFiles (folder_id : string)
| NoFilesFound
| FoundFiles (n : nat)
| FileLine (f : DriveFile)
| ErrorListing (e : exn)
| Downloading (file_name : string)
| Downloaded (file_name : string)
| ErrorDownloading (file_name : string)
| SkippingMissingContent (file_name : string)
| Uploading (file_name album_id : string)
| GeneratedAssetId (asset_id : string)
| CreatingAsset (file_name asset_id : string)
| AssetCreated
| UploadingBinary (file_name : string)
| BinaryUploaded
| AddingToAlbum (file_name album_id : string)
| WarningNotAddedToAlbum (status : Z)   (* "Warning: Could not add to album (status ...), but upload succeeded." *)
| AddedToAlbum
| SuccessfullyUploaded (file_name : string)
| HTTPErrorUploading (file_name : string) (e : exn)
| HTTPErrorResponse (text : string)
| GeneralErrorUploading (file_name : string) (e : exn)
| RequestFailed (method url : string) (e : exn)
| NoFilesToSynchronize
| StartingSynchronization (album_name : string)
| ProcessingBatch (number total : nat)
| SkippingNoFileId (file_name : string)  (* "Skipping '...' - no file ID found." *)
| FailedToGetContent (file_name : string)
| SynchronizationComplete.

Definition M : Type -> Type := Py.M World Msg.

(** ** Primitive effects *)

Definition log_call (c : Call) (w : World) : World :=
  {| net := net w ++ [c]; minted := minted w; clock := clock w |}.

(** [requests.request(...)] *)
Definition requests_request (env : Env) (req : Request) : M Response :=
  fun w =>
    match adobe env (net w) req with
    | Answer r => (Ok r, log_call (CallAdobe req) w, [])
    | NoAnswer => (Raise RequestException, log_call (CallAdobe req) w, [])
    end.

(** [str(uuid.uuid4())] *)
Definition uuid_uuid4 (env : Env) : M string :=
  fun w =>
    (Ok (uuid4 env (minted w)),
     {| net := net w; minted := S (minted w); clock := clock w |}, []).

(** [datetime.now()] *)
Definition datetime_now : M Z := fun w => (Ok (clock w), w, []).

(** Truth value of [bytes] that may be [None]. *)
Definition bytes_truthy (c : option bytes) : bool :=
  match c with
  | None | Some [] => false
  | Some (_ :: _) => true
  end.

(** ** [AdobeLightroomAuth.get_headers]  (adobe_auth.py, 279-290) *)
Definition get_headers (auth : AdobeAuth) : option Headers :=
  if negb (PyStr.truthy (access_token auth)) then None
  else Some [ ("Authorization", Some ("Bearer " +++ dict_get (access_token auth) "None"));
              ("X-API-Key", client_id auth);
              ("Content-Type", Some "application/json") ].

(** ** [AdobeLightroomAuth.make_authenticated_request]  (adobe_auth.py, 298-348)

    Called with [stream=False], [params=None], [base_url=None] throughout.
    In the handler, [e.response] is falsy both for an [HTTPError] (a
    response with an error status is falsy) and for a transport failure
    (no response), so the second line is never printed. *)
Definition make_authenticated_request (env : Env) (auth : AdobeAuth)
    (method endpoint : string) (headers : Headers)
    (json_data : option JsonBody) (data : option bytes) : M Response :=
  if negb (PyStr.truthy (access_token auth)) then raise RequestException
  else
    let url := api_base auth +++ endpoint in
    let combined_headers :=
      let h := dict_get (get_headers auth) [] in
      match headers with
      | [] => h
      | _ :: _ => dict_update h headers
      end in
    try_except
      (response <- requests_request env
          {| Http.method := method; url := url; Http.headers := combined_headers;
             json := json_data; data := data |} ;;
       (if raises_for_status (status_code response)
        then raise (HTTPError (status_code response) (text response))
        else ret tt) ;;
       if PyStr.contains "application/json" (dict_get (content_type response) EmptyString)
       then ret {| status_code := status_code response;
                   content_type := content_type response;
                   text := Strip._strip_adobe_prefix (text response) |}
       else ret response)
      (fun e =>
         if is_RequestException e
         then print (RequestFailed method url e) ;; raise e
         else raise e).

(** ** [SyncLogic._get_asset_subtype]  (logic.py, 62-71) *)
Definition _get_asset_subtype (mime_type : string) : string :=
  if PyStr.startswith mime_type "image/" then "image"
  else if PyStr.startswith mime_type "video/" then "video"
  else "image".

(** ** [SyncLogic._upload_file_to_lightroom]  (logic.py, 73-188) *)
Definition _upload_file_to_lightroom (env : Env) (auth : AdobeAuth)
    (catalogue_id : string) (file_content : option bytes)
    (file_name album_id mime_type : string) : M bool :=
  if negb (bytes_truthy file_content) then
    print (SkippingMissingContent file_name) ;;
    ret false
  else
    print (Uploading file_name album_id) ;;
    try_except
      ((* asset_id = str(uuid.uuid4()).replace('-', '') *)
       u <- uuid_uuid4 env ;;
       let asset_id := PyStr.remove_char "-"%char u in
       print (GeneratedAssetId asset_id) ;;
       (* Step 1: Create an Asset *)
       let create_asset_endpoint :=
         "/v2/catalogs/" +++ catalogue_id +++ "/assets/" +++ asset_id in
       let asset_subtype := _get_asset_subtype mime_type in
       t_capture <- datetime_now ;;
       imported_by <-
         match account_info auth with
         | None => raise AttributeError
         | Some i => ret (dict_get i "Unknown")
         end ;;
       t_import <- datetime_now ;;
       let create_payload :=
         {| subtype := asset_subtype;
            captureDate := t_capture;
            fileName := file_name;
            importedOnDevice := "Partner API Upload";
            importedBy := imported_by;
            importTimestamp := t_import |} in
       print (CreatingAsset file_name asset_id) ;;
       response <- make_authenticated_request env auth "PUT" create_asset_endpoint
                     [("Content-Type", Some "application/json");
                      ("If-None-Match", Some "*")]
                     (Some (CreateAsset create_payload)) None ;;
       (if negb (created_or_ok (status_code response))
        then raise (ValueError (status_code response))
        else ret tt) ;;
       print AssetCreated ;;
       (* Step 2: Upload the Binary Data *)
       let upload_master_endpoint :=
         "/v2/catalogs/" +++ catalogue_id +++ "/assets/" +++ asset_id +++ "/master" in
       print (UploadingBinary file_name) ;;
       let upload_headers :=
         [("Content-Type", Some mime_type);
          ("Content-Length",
           Some (NilZero.string_of_uint
                   (Nat.to_uint (List.length (dict_get file_content [])))))] in
       response <- make_authenticated_request env auth "PUT" upload_master_endpoint
                     upload_headers None file_content ;;
       (if negb (created_or_ok (status_code response))
        then raise (ValueError (status_code response))
        else ret tt) ;;
       print BinaryUploaded ;;
       (* Step 3: Add the asset to the Album *)
       let add_to_album_endpoint :=
         "/v2/catalogs/" +++ catalogue_id +++ "/albums/" +++ album_id +++ "/assets" in
       print (AddingToAlbum file_name album_id) ;;
       response <- make_authenticated_request env auth "PUT" add_to_album_endpoint
                     [("Content-Type", Some "application/json")]
                     (Some (AddToAlbum asset_id false)) None ;;
       (if negb (created_or_ok (status_code response))
        then print (WarningNotAddedToAlbum (status_code response))
        else print AddedToAlbum) ;;
       print (SuccessfullyUploaded file_name) ;;
       ret true)
      (fun e =>
         match e with
         | HTTPError _ response_text =>
             (* except requests.exceptions.HTTPError as http_err *)
             print (HTTPErrorUploading file_name e) ;;
             print (HTTPErrorResponse response_text) ;;
             ret false
         | _ =>
             (* except Exception as e *)
             print (GeneralErrorUploading file_name e) ;;
             ret false
         end).

(** ** [SyncLogic._download_file_from_drive]  (logic.py, 42-60)

    The chunk loop of [MediaIoBaseDownload] is one call of the Drive
    oracle: it ends with the whole content in the buffer, or raises. *)
Definition _download_file_from_drive (env : Env) (file_id file_name : string)
  : M (option bytes) :=
  print (Downloading file_name) ;;
  try_except
    (content <- (fun w =>
                   match get_media env (net w) file_id with
                   | Some c => (Ok c, log_call (CallDownload file_id) w, [])
                   | None => (Raise OSError, log_call (CallDownload file_id) w, [])
                   end) ;;
     print (Downloaded file_name) ;;
     ret (Some content))
    (fun e => print (ErrorDownloading file_name) ;; ret None).

(** ** [SyncLogic.list_drive_files]  (logic.py, 16-40) *)
Definition list_drive_files (env : Env) (folder_id : string)
  : M (list DriveFile) :=
  print (ListingFiles folder_id) ;;
  try_except
    (results <- (fun w =>
                   match files_list env (net w) folder_id with
                   | Some r => (Ok r, log_call (CallList folder_id) w, [])
                   | None => (Raise OSError, log_call (CallList folder_id) w, [])
                   end) ;;
     let files := dict_get results [] in
     match files with
     | [] => print NoFilesFound
     | _ :: _ =>
         print (FoundFiles (List.length files)) ;;
         for_each files (fun file => print (FileLine file))
     end ;;
     ret files)
    (fun e => print (ErrorListing e) ;; ret []).

(** ** [SyncLogic.sync_folder_to_album]  (logic.py, 190-219) *)




Definition batch_size : nat := 5.

(** [range(start, stop, step)], by the number of elements it holds. *)
Fixpoint range_from (count start step : nat) : list nat :=
  match count with
  | O => []
  | S count' => start :: range_from count' (start + step) step
  end.

(** [range(0, stop, step)] has [ceil(stop / step)] elements. *)
Definition range_step (stop step : nat) : list nat :=
  range_from ((stop + step - 1) / step) 0 step.

(** [l[i:j]] for [0 <= i <= j] *)
Definition slice {A} (l : list A) (i j : nat) : list A :=
  firstn (j - i) (skipn i l).

(** The batches the outer loop walks through:
    [drive_files[i:i + batch_size]] for [i in range(0, len(drive_files), batch_size)]. *)
Definition batches {A} (drive_files : list A) : list (list A) :=
  map (fun i => slice drive_files i (i + batch_size))
      (range_step (List.length drive_files) batch_size).

(** The body of the inner loop, lines 205-217: one source entry. *)
Definition sync_file (env : Env) (auth : AdobeAuth)
    (album_id catalogue_id : string) (file : DriveFile) : M unit :=
  let file_name := dict_get (name file) "Unknown File" in
  let file_id := id file in
  let file_mime_type := dict_get (mimeType file) "application/octet-stream" in
  if negb (PyStr.truthy file_id) then
    print (SkippingNoFileId file_name)        (* continue *)
  else
    file_content <-
      _download_file_from_drive env (dict_get file_id EmptyString) file_name ;;
    if bytes_truthy file_content then
      _upload_file_to_lightroom env auth catalogue_id file_content file_name
        album_id file_mime_type ;;
      ret tt
    else
      print (FailedToGetContent file_name).


(** ** Vocabulary for the statements below *)

(** The asset id minted next in world [w]. *)
Definition next_asset_id (env : Env) (w : World) : string :=
  PyStr.remove_char "-"%char (uuid4 env (minted w)).

(** Phase 2, Create: [PUT /v2/catalogs/{catalog}/assets/{asset}]. *)
Definition create_request (env : Env) (auth : AdobeAuth) (w : World)
    (catalogue_id file_name mime_type : string) : Request :=
  {| method := "PUT";
     url := api_base auth +++ "/v2/catalogs/" +++ catalogue_id +++ "/assets/"
            +++ next_asset_id env w;
     headers := [("Authorization", Some ("Bearer " +++ dict_get (access_token auth) "None"));
                 ("X-API-Key", client_id auth);
                 ("Content-Type", Some "application/json");
                 ("If-None-Match", Some "*")];
     json := Some (CreateAsset
                     {| subtype := _get_asset_subtype mime_type;
                        captureDate := clock w;
                        fileName := file_name;
                        importedOnDevice := "Partner API Upload";
                        importedBy := dict_get (dict_get (account_info auth) None) "Unknown";
                        importTimestamp := clock w |});
     data := None |}.

(** Phase 3, Upload: [PUT .../assets/{asset}/master] with the raw content. *)
Definition upload_request (auth : AdobeAuth) (catalogue_id asset_id mime_type : string)
    (file_content : option bytes) : Request :=
  {| method := "PUT";
     url := api_base auth +++ "/v2/catalogs/" +++ catalogue_id +++ "/assets/"
            +++ asset_id +++ "/master";
     headers := [("Authorization", Some ("Bearer " +++ dict_get (access_token auth) "None"));
                 ("X-API-Key", client_id auth);
                 ("Content-Type", Some mime_type);
                 ("Content-Length",
                  Some (NilZero.string_of_uint
                          (Nat.to_uint (List.length (dict_get file_content [])))))];
     json := None;
     data := file_content |}.

(** Phase 4, Associate: [PUT .../albums/{album}/assets]. *)
Definition associate_request (auth : AdobeAuth) (catalogue_id album_id asset_id : string)
  : Request :=
  {| method := "PUT";
     url := api_base auth +++ "/v2/catalogs/" +++ catalogue_id +++ "/albums/"
            +++ album_id +++ "/assets";
     headers := [("Authorization", Some ("Bearer " +++ dict_get (access_token auth) "None"));
                 ("X-API-Key", client_id auth);
                 ("Content-Type", Some "application/json")];
     json := Some (AddToAlbum asset_id false);
     data := None |}.

Definition is_adobe_call (c : Call) : bool :=
  match c with CallAdobe _ => true | _ => false end.



(** The line that signals a failed listing. *)
Definition is_error_line (m : Msg) : bool :=
  match m with ErrorListing _ => true | _ => false end.

(** *** A concrete setting for examples *)

Definition json_response (status : Z) : NetResult :=
  Answer {| status_code := status;
            content_type := Some "application/json";
            text := "while (1) {}{}" |}.

(** A Lightroom that answers the three phases with the given statuses, and
    a Drive that serves one byte for every file. *)
Definition env_by_phase (create upload associate : Z) : Env :=
  {| adobe := fun _ r =>
       if PyStr.contains "/albums/" (url r) then json_response associate
       else if PyStr.contains "/master" (url r) then json_response upload
       else json_response create;
     get_media := fun _ _ => Some [x01%byte];
     files_list := fun _ _ => Some (Some []);
     uuid4 := fun _ => "0f8fad5b-d9cb-469f-a165-70867728950e" |}.

Definition example_auth : AdobeAuth :=
  {| client_id := Some "client";
     access_token := Some "token";
     api_base := "https://lr.adobe.io";
     account_info := Some (Some "account") |}.

Definition initial_world : World := {| net := []; minted := 0; clock := 0 |}.

Definition example_entry : DriveFile :=
  {| id := Some "file-1"; name := Some "a.jpg"; mimeType := Some "image/jpeg" |}.



End Sync.

(* ================================================================== *)
(** * [LightroomAlbumSelector]  (menus.py, 161-312): the flat listing *)

Module Albums.
Import Py.
Local Open Scope py_scope.

(** A parsed JSON document. *)
Inductive Json : Type :=
| JNull
| JBool (b : bool)
| JNum (z : Z)
| JStr (s : string)
| JArr (items : list Json)
| JObj (entries : list (string * Json)).

(** One [requests.get(url, headers=self.headers, params=params)]. *)
Record Request : Type := {
  url : string;
  headers : option Http.Headers;
  params : list (string * Z)
}.

Record Env : Type := {
  (* the answer may depend on the requests made so far *)
  http_get : list Request -> Request -> Http.NetResult;
  (* [json.loads]; [None] when it raises *)
  json_loads : string -> option Json;
  (* [str(v)] for a value spliced into an f-string *)
  str_of : Json -> string
}.

(** The fields of the selector object. *)
Record Selector : Type := {
  api_base : string;
  self_headers : option Http.Headers;   (* [self.headers], taken when the selector is built *)
  catalog_id : option string
}.

(** The dict built by [_extract_album_info]; [None] is [JNull]. *)
Record Album : Type := {
  id : Json;
  name : Json;
  created : Json;
  updated : Json;
  subtype : Json
}.

Inductive Msg : Type :=
| NoCatalogId
| FetchingAlbums (url : string) (params : list (string * Z))
| StatusLine (status : Z)
| NextPageLink (link : option string)
| FoundAlbums (n : nat)
| UnexpectedStructure
| CatalogNotFound
| AuthenticationFailed
| AccessDenied
| ErrorStatus (status : Z) (text : string)
| ExceptionLine (e : exn).

Definition World : Type := list Request.
Definition M : Type -> Type := Py.M World Msg.

(** ** Python's operators on parsed JSON *)

Definition lookup (k : string) (entries : list (string * Json)) : option Json :=
  match find (fun kv => String.eqb (fst kv) k) entries with
  | Some kv => Some (snd kv)
  | None => None
  end.

(** [k in v] for a string [k] *)
Definition py_in (k : string) (v : Json) : M bool :=
  match v with
  | JObj entries =>
      ret (match lookup k entries with Some _ => true | None => false end)
  | JArr items =>
      ret (existsb (fun x => match x with JStr s => String.eqb s k | _ => false end) items)
  | JStr s => ret (PyStr.contains k s)
  | _ => raise TypeError
  end.

(** [v[k]] for a string [k] *)
Definition py_getitem (v : Json) (k : string) : M Json :=
  match v with
  | JObj entries =>
      match lookup k entries with
      | Some x => ret x
      | None => raise KeyError
      end
  | _ => raise TypeError
  end.

Definition truthy (v : Json) : bool :=
  match v with
  | JNull => false
  | JBool b => b
  | JNum z => negb (Z.eqb z 0)
  | JStr s => negb (String.eqb s EmptyString)
  | JArr items => match items with [] => false | _ => true end
  | JObj entries => match entries with [] => false | _ => true end
  end.

Definition is_dict (v : Json) : bool :=
  match v with JObj _ => true | _ => false end.

(** [f"{v}"] *)
Definition format (env : Env) (v : Json) : string :=
  match v with
  | JStr s => s
  | _ => str_of env v
  end.

(** ** [_parse_adobe_response]  (menus.py, 169-175) *)
Definition _parse_adobe_response (env : Env) (response_text : string) : M Json :=
  let body :=
    if PyStr.startswith response_text "while (1) {}"
    then PyStr.drop 12 response_text
    else response_text in
  match json_loads env body with
  | Some v => ret v
  | None => raise JSONDecodeError
  end.

(** ** [_extract_album_info]  (menus.py, 283-312) *)
Definition _extract_album_info (album_data : Json) : M Album :=
  let album_info :=
    {| id := JNull; name := JStr "Unnamed Album"; created := JNull;
       updated := JNull; subtype := JNull |} in
  has_id <- py_in "id" album_data ;;
  album_info <-
    (if has_id : bool then
       v <- py_getitem album_data "id" ;;
       ret {| id := v; name := name album_info; created := created album_info;
              updated := updated album_info; subtype := subtype album_info |}
     else ret album_info) ;;
  has_payload <- py_in "payload" album_data ;;
  payload_is_dict <-
    (if has_payload : bool then
       p <- py_getitem album_data "payload" ;; ret (is_dict p)
     else ret false) ;;
  album_info <-
    (if payload_is_dict : bool then
       payload <- py_getitem album_data "payload" ;;
       has_name <- py_in "name" payload ;;
       album_info <-
         (if has_name : bool then
            v <- py_getitem payload "name" ;;
            ret {| id := id album_info; name := v; created := created album_info;
                   updated := updated album_info; subtype := subtype album_info |}
          else ret album_info) ;;
       has_subtype <- py_in "subtype" payload ;;
       if has_subtype : bool then
         v <- py_getitem payload "subtype" ;;
         ret {| id := id album_info; name := name album_info;
                created := created album_info; updated := updated album_info;
                subtype := v |}
       else ret album_info
     else ret album_info) ;;
  has_created <- py_in "created" album_data ;;
  album_info <-
    (if has_created : bool then
       v <- py_getitem album_data "created" ;;
       ret {| id := id album_info; name := name album_info; created := v;
              updated := updated album_info; subtype := subtype album_info |}
     else ret album_info) ;;
  has_updated <- py_in "updated" album_data ;;
  if has_updated : bool then
    v <- py_getitem album_data "updated" ;;
    ret {| id := id album_info; name := name album_info;
           created := created album_info; updated := v;
           subtype := subtype album_info |}
  else ret album_info.

(** [requests.get(url, headers=self.headers, params=params)] *)
Definition requests_get (env : Env) (req : Request) : M Http.Response :=
  fun w =>
    match http_get env w req with
    | Http.Answer r => (Ok r, w ++ [req], [])
    | Http.NoAnswer => (Raise RequestException, w ++ [req], [])
    end.

(** The loop over [data['resources']]: keep the albums whose id is truthy. *)
Fixpoint collect_albums (resources : list Json) : M (list Album) :=
  match resources with
  | [] => ret []
  | album_data :: rest =>
      album <- _extract_album_info album_data ;;
      albums <- collect_albums rest ;;
      ret (if truthy (id album) then album :: albums else albums)
  end.

(** ** [list_albums]  (menus.py, 215-281)

    Returns the pair [(albums, next_page_link)]. *)
Definition list_albums (env : Env) (self : Selector)
    (limit : option Z) (offset : Z) (next_link : option string)
  : M (list Album * option string) :=
  if negb (PyStr.truthy (catalog_id self)) then
    print NoCatalogId ;;
    ret ([], None)
  else
    try_except
      (let catalog := dict_get (catalog_id self) EmptyString in
       let url :=
         if PyStr.truthy next_link then dict_get next_link EmptyString
         else api_base self +++ "/v2/catalogs/" +++ catalog +++ "/albums" in
       let params :=
         (* only apply limit and offset if a next_link is not being used *)
         if negb (PyStr.truthy next_link) then
           (match limit with Some l => [("limit", l)] | None => [] end)
           ++ (if (offset >? 0)%Z then [("offset", offset)] else [])
         else [] in
       print (FetchingAlbums url params) ;;
       response <- requests_get env
                     {| url := url; headers := self_headers self; params := params |} ;;
       let status := Http.status_code response in
       print (StatusLine status) ;;
       if (status =? 200)%Z then
         data <- _parse_adobe_response env (Http.text response) ;;
         has_links <- py_in "links" data ;;
         has_next <-
           (if has_links : bool then
              links <- py_getitem data "links" ;; py_in "next" links
            else ret false) ;;
         next_page_link <-
           (if has_next : bool then
              links <- py_getitem data "links" ;;
              next <- py_getitem links "next" ;;
              next_link_href <- py_getitem next "href" ;;
              let next_page_link :=
                if truthy next_link_href
                then Some (api_base self +++ "/v2/catalogs/" +++ catalog +++ "/"
                           +++ format env next_link_href)
                else None in
              print (NextPageLink next_page_link) ;;
              ret next_page_link
            else ret None) ;;
         has_resources <- py_in "resources" data ;;
         resources <-
           (if has_resources : bool then
              r <- py_getitem data "resources" ;;
              ret (match r with JArr items => Some items | _ => None end)
            else ret None) ;;
         albums <-
           match resources with
           | Some items =>
               print (FoundAlbums (List.length items)) ;;
               collect_albums items
           | None =>
               print UnexpectedStructure ;;
               ret []
           end ;;
         ret (albums, next_page_link)
       else if (status =? 404)%Z then
         print CatalogNotFound ;; ret ([], None)
       else if (status =? 401)%Z then
         print AuthenticationFailed ;; ret ([], None)
       else if (status =? 403)%Z then
         print AccessDenied ;; ret ([], None)
       else
         print (ErrorStatus status (String.substring 0 200 (Http.text response))) ;;
         ret ([], None))
      (fun e => print (ExceptionLine e) ;; ret ([], None)).

(** ** Vocabulary for the statements below *)

(** The request [list_albums] issues for its arguments. *)
Definition listing_request (self : Selector)
    (limit : option Z) (offset : Z) (next_link : option string) : Request :=
  {| url := if PyStr.truthy next_link then dict_get next_link EmptyString
            else api_base self +++ "/v2/catalogs/"
                 +++ dict_get (catalog_id self) EmptyString +++ "/albums";
     headers := self_headers self;
     params := if negb (PyStr.truthy next_link) then
                 (match limit with Some l => [("limit", l)] | None => [] end)
                 ++ (if (offset >? 0)%Z then [("offset", offset)] else [])
               else [] |}.

(** The lines that signal a failed listing. *)
Definition is_error_line (m : Msg) : bool :=
  match m with
  | CatalogNotFound | AuthenticationFailed | AccessDenied
  | ErrorStatus _ _ | ExceptionLine _ => true
  | _ => false
  end.

(** *** A concrete setting for examples *)


Definition example_selector : Selector :=
  {| api_base := "https://lr.adobe.io";
     self_headers := Some [("Authorization", Some "Bearer token")];
     catalog_id := Some "catalog" |}.


End Albums.

(* ================================================================== *)
(** * [AdobeLightroomAuth]: the token lifecycle  (adobe_auth.py, 47-277) *)

Module Auth.
Import Py.
Local Open Scope py_scope.
Local Open Scope Z_scope.

(** A [datetime] is a number of microseconds; a [timedelta] likewise. *)
Definition timedelta_seconds (n : Z) : Z := n * 1000000.
Definition timedelta_minutes (n : Z) : Z := n * 60 * 1000000.

(** An entry of a JSON object: missing, [null], or a value. *)
Inductive Field (A : Type) : Type :=
| Absent
| Null
| Val (a : A).
Arguments Absent {A}.
Arguments Null {A}.
Arguments Val {A} a.

(** [d.get(key, default)] *)
Definition field_get {A} (f : Field A) (default : option A) : option A :=
  match f with
  | Absent => default
  | Null => None
  | Val a => Some a
  end.

(** The JSON object the token endpoint answers with. *)
Record TokenResponse : Type := {
  tr_access_token : Field string;
  tr_refresh_token : Field string;
  tr_expires_in : Field Z;            (* seconds *)
  tr_token_type : Field string
}.

(** What [response.json()] gives. *)
Inductive PostBody : Type :=
| NotJson                              (* [response.json()] raises *)
| NotADict                             (* JSON, but not an object *)
| Dict (r : TokenResponse).

(** The form posted to the token endpoint ([requests.post(token_url, data=...)]). *)
Inductive Post : Type :=
| RefreshGrant (client_id client_secret refresh_token : option string)
| CodeGrant (client_id client_secret : option string) (code redirect_uri : string).

Inductive PostResult : Type :=
| PostFails                            (* a [RequestException] of the transport *)
| PostAnswer (status : Z) (text : string) (body : PostBody).

Record Env : Type := {
  (* the answer may depend on the posts made so far *)
  token_endpoint : list Post -> Post -> PostResult
}.

(** The ['expires_at'] entry of the token file, as [_load_tokens] meets it. *)
Inductive ExpiresAt : Type :=
| ExpMissing                           (* no entry, [null] or [''] *)
| ExpMalformed                         (* [datetime.fromisoformat] raises *)
| ExpTime (t : Z).

(** [tokens/adobe_token.json] *)
Record TokenData : Type := {
  td_access_token : option string;
  td_refresh_token : option string;
  td_expires_at : ExpiresAt;
  td_token_type : option string
}.

Inductive TokenFile : Type :=
| NoFile                               (* [os.path.exists] is false *)
| Unreadable                           (* opening or [json.load] raises *)
| Stored (d : TokenData).

(** The instance. *)
Record Self : Type := {
  client_id : option string;
  client_secret : option string;
  redirect_uri : string;
  access_token : option string;
  refresh_token : option string;
  token_expires : option Z
}.

Record World : Type := {
  self : Self;
  token_file : TokenFile;
  disk_writable : bool;                (* can [tokens/adobe_token.json] be written *)
  auth_code_txt : option string;       (* [auth_code.txt] once the user has pressed Enter *)
  posts : list Post;
  clock : Z                            (* [datetime.now()] *)
}.

Inductive Msg : Type :=
| Authenticating
| UsingExistingToken
| RefreshingToken
| CouldNotLoadTokens
| TokensSaved
| FailedToSaveTokens (e : exn)
| StartingOAuthFlow                    (* lines 138-173: the URL and the instructions *)
| AuthCodeFileNotFound
| ReadCode (length : nat)
| CodeTooShort
| CodeStartsWith (s : string)
| CleanedCode
| RemovedAuthCodeFile
| ErrorReadingAuthCode (e : exn)
| ExchangingCode
| ResponseStatus (status : Z)
| TokenRequestFailed (status : Z) (text : string)
| TokenResponseReceived
| FailedToExchange (e : exn)
| UnexpectedError (e : exn)
| FailedToRefresh (e : exn).

Definition M : Type -> Type := Py.M World Msg.

(** ** State access *)

Definition set_self (s : Self) (w : World) : World :=
  {| self := s; token_file := token_file w; disk_writable := disk_writable w;
     auth_code_txt := auth_code_txt w; posts := posts w; clock := clock w |}.

Definition set_tokens (a r : option string) (s : Self) : Self :=
  {| client_id := client_id s; client_secret := client_secret s;
     redirect_uri := redirect_uri s; access_token := a; refresh_token := r;
     token_expires := token_expires s |}.

Definition set_token_expires (t : Z) (s : Self) : Self :=
  {| client_id := client_id s; client_secret := client_secret s;
     redirect_uri := redirect_uri s; access_token := access_token s;
     refresh_token := refresh_token s; token_expires := Some t |}.

Definition modify_self (f : Self -> Self) : M unit :=
  fun w => (Ok tt, set_self (f (self w)) w, []).

Definition get_self : M Self := fun w => (Ok (self w), w, []).

(** [datetime.now()] *)
Definition datetime_now : M Z := fun w => (Ok (clock w), w, []).

(** [requests.post(self.token_url, data=...)] *)
Definition requests_post (env : Env) (p : Post) : M (Z * string * PostBody) :=
  fun w =>
    let w' := {| self := self w; token_file := token_file w;
                 disk_writable := disk_writable w;
                 auth_code_txt := auth_code_txt w;
                 posts := posts w ++ [p]; clock := clock w |} in
    match token_endpoint env (posts w) p with
    | PostAnswer status text body => (Ok (status, text, body), w', [])
    | PostFails => (Raise RequestException, w', [])
    end.

(** [response.json()] *)
Definition response_json (body : PostBody) : M PostBody :=
  match body with
  | NotJson => raise RequestsJSONDecodeError
  | _ => ret body
  end.

(** [with open(self.token_file, 'w') as f: json.dump(token_data, f, indent=2)] *)
Definition write_token_file (d : TokenData) : M unit :=
  fun w =>
    if disk_writable w then
      (Ok tt,
       {| self := self w; token_file := Stored d; disk_writable := disk_writable w;
          auth_code_txt := auth_code_txt w; posts := posts w; clock := clock w |},
       [])
    else (Raise OSError, w, []).

(** [os.remove('auth_code.txt')] *)
Definition remove_auth_code_txt : M unit :=
  fun w =>
    (Ok tt,
     {| self := self w; token_file := token_file w; disk_writable := disk_writable w;
        auth_code_txt := None; posts := posts w; clock := clock w |},
     []).

(** ** [_load_tokens]  (adobe_auth.py, 70-92) *)
Definition _load_tokens : M bool :=
  w <- get ;;
  match token_file w with
  | NoFile => ret false
  | file =>
      try_except
        (token_data <-
           match file with
           | Stored d => ret d
           | _ => raise JSONDecodeError
           end ;;
         modify_self (set_tokens (td_access_token token_data)
                                 (td_refresh_token token_data)) ;;
         match td_expires_at token_data with
         | ExpMissing => ret tt
         | ExpMalformed => raise InvalidIsoFormat
         | ExpTime t => modify_self (set_token_expires t)
         end ;;
         s <- get_self ;;
         ret (PyStr.truthy (access_token s)))
        (fun e => print CouldNotLoadTokens ;; ret false)
  end.

(** ** [_save_tokens]  (adobe_auth.py, 94-122) *)
Definition _save_tokens (token_response : PostBody) : M bool :=
  try_except
    (r <- match token_response with
          | Dict r => ret r
          | _ => raise AttributeError
          end ;;
     (* expires_in = token_response.get('expires_in', 3600) *)
     expires_in <- match field_get (tr_expires_in r) (Some 3600) with
                   | Some n => ret n
                   | None => raise TypeError       (* timedelta(seconds=None) *)
                   end ;;
     now <- datetime_now ;;
     let expires_at := now + timedelta_seconds expires_in in
     s <- get_self ;;
     access <- match tr_access_token r with
               | Absent => raise KeyError          (* token_response['access_token'] *)
               | Null => ret None
               | Val a => ret (Some a)
               end ;;
     let token_data :=
       {| td_access_token := access;
          td_refresh_token := field_get (tr_refresh_token r) (refresh_token s);
          td_expires_at := ExpTime expires_at;
          td_token_type := field_get (tr_token_type r) (Some "Bearer"%string) |} in
     write_token_file token_data ;;
     modify_self (set_tokens (td_access_token token_data) (td_refresh_token token_data)) ;;
     modify_self (set_token_expires expires_at) ;;
     print TokensSaved ;;
     ret true)
    (fun e => print (FailedToSaveTokens e) ;; ret false).

(** ** [_is_token_valid]  (adobe_auth.py, 124-132) *)
Definition _is_token_valid : M bool :=
  s <- get_self ;;
  match token_expires s with
  | Some expires =>
      if negb (PyStr.truthy (access_token s)) then ret false
      else
        now <- datetime_now ;;
        (* check if token expires in next 5 minutes *)
        ret (now <? expires - timedelta_minutes 5)
  | None => ret false
  end.

(** ** [_exchange_code_for_tokens]  (adobe_auth.py, 212-252) *)
Definition _exchange_code_for_tokens (env : Env) (auth_code : string) : M bool :=
  print ExchangingCode ;;
  s <- get_self ;;
  let token_data :=
    CodeGrant (client_id s) (client_secret s) auth_code (redirect_uri s) in
  try_except
    (response <- requests_post env token_data ;;
     let '(status, text, body) := response in
     print (ResponseStatus status) ;;
     if negb (status =? 200) then
       print (TokenRequestFailed status text) ;;
       ret false
     else
       token_response <- response_json body ;;
       print TokenResponseReceived ;;
       saved <- _save_tokens token_response ;;
       if saved : bool then ret true else ret false)
    (fun e =>
       if is_RequestException e
       then print (FailedToExchange e) ;; ret false
       else print (UnexpectedError e) ;; ret false).

(** ** [_refresh_access_token]  (adobe_auth.py, 254-277) *)
Definition _refresh_access_token (env : Env) : M bool :=
  s <- get_self ;;
  if negb (PyStr.truthy (refresh_token s)) then ret false
  else
    let refresh_data :=
      RefreshGrant (client_id s) (client_secret s) (refresh_token s) in
    try_except
      (response <- requests_post env refresh_data ;;
       let '(status, text, body) := response in
       (if Http.raises_for_status status
        then raise (HTTPError status text)
        else ret tt) ;;
       token_response <- response_json body ;;
       _save_tokens token_response)
      (fun e =>
         if is_RequestException e
         then print (FailedToRefresh e) ;; ret false
         else raise e).

(** ** [_do_oauth_flow]  (adobe_auth.py, 134-210)

    The browser is opened and [input] waits for the user; [auth_code_txt]
    of the world is the file as it is when [input] returns. *)
Definition _do_oauth_flow (env : Env) : M bool :=
  print StartingOAuthFlow ;;
  try_except
    (w <- get ;;
     match auth_code_txt w with
     | None =>
         print AuthCodeFileNotFound ;;
         ret false
     | Some content =>
         let auth_code := PyStr.strip content in
         print (ReadCode (String.length auth_code)) ;;
         if (String.length auth_code <? 10)%nat then
           print CodeTooShort ;;
           ret false
         else
           print (CodeStartsWith (String.substring 0 30 auth_code)) ;;
           auth_code <-
             (if PyStr.contains "&" auth_code
              then print CleanedCode ;; ret (PyStr.before "&"%char auth_code)
              else ret auth_code) ;;
           remove_auth_code_txt ;;
           print RemovedAuthCodeFile ;;
           _exchange_code_for_tokens env auth_code
     end)
    (fun e => print (ErrorReadingAuthCode e) ;; ret false).

(** ** [authenticate]  (adobe_auth.py, 47-68)

    [done] is true where the source returns [True] from inside the
    [if self._load_tokens():] block; otherwise control reaches the final
    [return self._do_oauth_flow()]. *)
Definition authenticate (env : Env) : M bool :=
  print Authenticating ;;
  s <- get_self ;;
  if negb (PyStr.truthy (client_id s)) || negb (PyStr.truthy (client_secret s))
  then ret false
  else
    loaded <- _load_tokens ;;
    done <-
      (if loaded : bool then
         valid <- _is_token_valid ;;
         if valid : bool then
           print UsingExistingToken ;;
           ret true
         else
           s <- get_self ;;
           if PyStr.truthy (refresh_token s) then
             print RefreshingToken ;;
             refreshed <- _refresh_access_token env ;;
             ret refreshed
           else ret false
       else ret false) ;;
    if done : bool then ret true
    else
      (* need to do OAuth flow *)
      _do_oauth_flow env.

(** ** Vocabulary for the statements below *)

Definition SKEW : Z := timedelta_minutes 5.

(** [now < expires_at - SKEW] for the session the instance holds. *)
Definition session_fresh (w : World) : Prop :=
  exists expires_at,
    token_expires (self w) = Some expires_at /\ clock w < expires_at - SKEW.

(** The lifetime a token response grants, in seconds. *)
Definition granted_lifetime (r : TokenResponse) : option Z :=
  field_get (tr_expires_in r) (Some 3600).

(** The session a successful refresh or code exchange leaves behind: its
    expiry is the time of the call plus the lifetime that the token endpoint
    granted in one of its answers. *)
Definition just_granted (env : Env) (w w' : World) : Prop :=
  exists history post status text r lifetime,
    token_endpoint env history post = PostAnswer status text (Dict r) /\
    granted_lifetime r = Some lifetime /\
    token_expires (self w') = Some (clock w + timedelta_seconds lifetime) /\
    clock w' = clock w.

(** [m] does not move the clock. *)
Definition keeps_clock {A} (m : M A) : Prop :=
  forall w, clock (world (m w)) = clock w.

(** *** A concrete setting for examples *)

(** A token endpoint that grants tokens living for [lifetime] seconds. *)
Definition env_granting (lifetime : Z) : Env :=
  {| token_endpoint := fun _ _ =>
       PostAnswer 200 "{}"%string
         (Dict {| tr_access_token := Val "fresh-token"%string;
                  tr_refresh_token := Absent;
                  tr_expires_in := Val lifetime;
                  tr_token_type := Absent |}) |}.

(** An instance just built, next to a token file whose access token
    expired at [expired_at], read at time [now]. *)
Definition world_with_stored_token (expired_at now : Z) : World :=
  {| self := {| client_id := Some "client"%string;
                client_secret := Some "secret"%string;
                redirect_uri := "http://localhost:8080/callback"%string;
                access_token := None;
                refresh_token := None;
                token_expires := None |};
     token_file := Stored {| td_access_token := Some "stored-token"%string;
                             td_refresh_token := Some "refresh-token"%string;
                             td_expires_at := ExpTime expired_at;
                             td_token_type := Some "Bearer"%string |};
     disk_writable := true;
     auth_code_txt := None;
     posts := [];
     clock := now |}.

End Auth.

(* ================================================================== *)
(** * Vocabulary for further properties of the request client and the pipeline *)

Module Dict.

(** [d.get(k)] on a dict kept in insertion order: [None] when the key is
    missing, [Some v] with the value (which may itself be [None]). *)
Definition lookup (k : string) (d : Http.Headers) : option (option string) :=
  match find (fun kv => String.eqb (fst kv) k) d with
  | Some kv => Some (snd kv)
  | None => None
  end.

(** The headers of the session, as [get_headers] builds them for a token. *)
Definition session_headers (auth : Sync.AdobeAuth) : Http.Headers :=
  [ ("Authorization", Some ("Bearer " +++ Py.dict_get (Sync.access_token auth) "None"));
    ("X-API-Key", Sync.client_id auth);
    ("Content-Type", Some "application/json") ].

(** The request [make_authenticated_request] hands to [requests.request]. *)
Definition client_request (auth : Sync.AdobeAuth) (method endpoint : string)
    (headers : Http.Headers) (json_data : option Http.JsonBody)
    (data : option Http.bytes) : Http.Request :=
  {| Http.method := method;
     Http.url := Sync.api_base auth +++ endpoint;
     Http.headers := Http.dict_update (session_headers auth) headers;
     Http.json := json_data;
     Http.data := data |}.

End Dict.

Module Calls.
Import Py Sync.








End Calls.

(** * Vocabulary for folder paths *)

Module Ancestry.
Import Py DrivePath.

(** The path of a folder, from the folders on the way up: [(id, name)] of
    the folder first, then of its parent, and so on up to the folder that
    hangs from the root. *)
Fixpoint path_above (chain : list (string * string)) : string :=
  match chain with
  | [] => "📁 My Drive"
  | (_, folder_name) :: up => path_above up +++ " / " +++ folder_name
  end.

(** Drive, asked after the lookups [w], describes the chain: each folder is
    not the root, its lookup succeeds and gives its name (['Unknown'] when
    the answer has none), its first parent is the next folder of the chain,
    and the last folder has no parent or hangs from ['root']. *)
Fixpoint climbs (env : Env) (w : World) (chain : list (string * string)) : Prop :=
  match chain with
  | [] => False
  | (folder_id, folder_name) :: up =>
      folder_id <> "root" /\
      match files_get env w folder_id with
      | None => False
      | Some folder =>
          dict_get (name folder) "Unknown" = folder_name /\
          match up with
          | [] =>
              match dict_get (parents folder) [] with
              | [] => True
              | p0 :: _ => p0 = "root"
              end
          | (parent_id, _) :: _ =>
              (exists rest, dict_get (parents folder) [] = parent_id :: rest) /\
              climbs env (w ++ [folder_id]) up
          end
      end
  end.

(** A Drive with the folders [photos / 2024 / summer] under the root. *)
Definition three_levels : Env :=
  {| files_get := fun _ folder_id =>
       if String.eqb folder_id "f3"
       then Some {| name := Some "summer"; parents := Some ["f2"] |}
       else if String.eqb folder_id "f2"
       then Some {| name := Some "2024"; parents := Some ["f1"; "shared"] |}
       else if String.eqb folder_id "f1"
       then Some {| name := Some "photos"; parents := Some ["root"] |}
       else None |}.

End Ancestry.

(** * Vocabulary for outcomes and for album records *)

Module Outcome.
Import Py.

(** Every value [m] returns satisfies [Q]. *)
Definition post {W Msg A} (m : M W Msg A) (Q : A -> Prop) : Prop :=
  forall w a w' out, m w = (Ok a, w', out) -> Q a.

(** [m] raises, whatever the world. *)
Definition fails {W Msg A} (m : M W Msg A) : Prop :=
  forall w, exists e w' out, m w = (Raise e, w', out).


End Outcome.

Module AlbumRecord.
Import Albums.

(** [d.get(k, default)] on the entries of an object. *)
Definition field_or (k : string) (entries : list (string * Json)) (default : Json) : Json :=
  match lookup k entries with
  | Some v => v
  | None => default
  end.

(** The entries of the ['payload'] object, if there is one. *)
Definition payload_fields (entries : list (string * Json)) : list (string * Json) :=
  match lookup "payload" entries with
  | Some (JObj payload) => payload
  | _ => []
  end.


(** The link to the next page that [list_albums] builds from an [href]. *)
Definition next_page (self : Selector) (href : string) : string :=
  api_base self +++ "/v2/catalogs/" +++ Py.dict_get (catalog_id self) EmptyString
  +++ "/" +++ href.

(** What a returned page looks like: albums with a truthy id, and a link
    to the next page, if any, built from an [href]. *)
Definition page (self : Selector) (r : list Album * option string) : Prop :=
  Forall (fun album => truthy (id album) = true) (fst r) /\
  (snd r = None \/ exists href, snd r = Some (next_page self href)).


End AlbumRecord.

(** * Vocabulary for the token lifecycle *)

Module Session.
Import Py Auth.
Local Open Scope Z_scope.





(** The token file a token response is saved as, at time [now], by an
    instance whose refresh token is [old_refresh]. *)
Definition saved_as (r : TokenResponse) (lifetime now : Z) (old_refresh : option string)
  : TokenData :=
  {| td_access_token := field_get (tr_access_token r) None;
     td_refresh_token := field_get (tr_refresh_token r) old_refresh;
     td_expires_at := ExpTime (now + timedelta_seconds lifetime);
     td_token_type := field_get (tr_token_type r) (Some "Bearer"%string) |}.

(** The instance after it has taken over the tokens of [d]. *)
Definition holding (d : TokenData) (s : Self) : Self :=
  {| client_id := client_id s; client_secret := client_secret s;
     redirect_uri := redirect_uri s;
     access_token := td_access_token d;
     refresh_token := td_refresh_token d;
     token_expires := match td_expires_at d with
                      | ExpTime t => Some t
                      | _ => token_expires s
                      end |}.


(** A world whose [auth_code.txt] holds [content]; nothing is stored yet. *)
Definition world_with_code (content : string) : World :=
  {| self := {| client_id := Some "client"%string;
                client_secret := Some "secret"%string;
                redirect_uri := "http://localhost:8080/callback"%string;
                access_token := None;
                refresh_token := None;
                token_expires := None |};
     token_file := NoFile;
     disk_writable := true;
     auth_code_txt := Some content;
     posts := [];
     clock := 0 |}.

(** An instance that has loaded a token which expired at time 0; it is
    now [1000000000]. *)
Definition world_holding_expired_token : World :=
  {| self := {| client_id := Some "client"%string;
                client_secret := Some "secret"%string;
                redirect_uri := "http://localhost:8080/callback"%string;
                access_token := Some "stored-token"%string;
                refresh_token := Some "refresh-token"%string;
                token_expires := Some 0 |};
     token_file := token_file (world_with_stored_token 0 1000000000);
     disk_writable := true;
     auth_code_txt := None;
     posts := [];
     clock := 1000000000 |}.

End Session.

(* ================================================================== *)
(** * [TokenManager]  (token_manager.py, 11-127) *)

Module TokenManager.
Import Py.
Local Open Scope py_scope.

(** [config.json]: what [json.load] gives for it, which need not be an
    object.  The values saved are JSON values, so [json.dump] succeeds. *)
Inductive ConfigFile : Type :=
| NoConfig                             (* [os.path.exists] is false *)
| UnreadableConfig                     (* opening or [json.load] raises *)
| StoredConfig (v : Albums.Json).

(** The files the manager looks at, and the clock. *)
Record World : Type := {
  google_token_pickle : bool;          (* does [tokens/google_token.pickle] exist *)
  adobe_token_json : Auth.TokenFile;   (* [tokens/adobe_token.json] *)
  config_json : ConfigFile;
  config_writable : bool;              (* can [config.json] be opened for writing *)
  tokens_dir_writable : bool;          (* can files be removed from [tokens/] *)
  clock : Z                            (* [datetime.now()] *)
}.

Inductive Msg : Type :=
| SavedConfiguration (service : string)
| CouldNotLoadConfig (e : exn)
| Removed (file_path : string)
| StatusHeader
| Rule                                 (* ["=" * 30] *)
| ServiceStatus (service_name : string) (authenticated : bool).

Definition M : Type -> Type := Py.M World Msg.

Definition tokens_dir : string := "tokens".
Definition google_token_path : string := tokens_dir +++ "/google_token.pickle".
Definition adobe_token_path : string := tokens_dir +++ "/adobe_token.json".

(** ** The file system *)

(** [os.path.exists(file_path)] *)
Definition os_path_exists (file_path : string) : M bool :=
  fun w =>
    (Ok (if String.eqb file_path google_token_path then google_token_pickle w
         else if String.eqb file_path adobe_token_path then
                match adobe_token_json w with
                | Auth.NoFile => false
                | _ => true
                end
         else false),
     w, []).

(** [os.remove(file_path)], for a file that exists *)
Definition os_remove (file_path : string) : M unit :=
  fun w =>
    if negb (tokens_dir_writable w) then (Raise OSError, w, [])
    else
      (Ok tt,
       {| google_token_pickle :=
            if String.eqb file_path google_token_path then false
            else google_token_pickle w;
          adobe_token_json :=
            if String.eqb file_path adobe_token_path then Auth.NoFile
            else adobe_token_json w;
          config_json := config_json w;
          config_writable := config_writable w;
          tokens_dir_writable := tokens_dir_writable w;
          clock := clock w |},
       []).

(** [with open(self.config_file, 'w') as f: json.dump(config, f, indent=2)] *)
Definition write_config (config : Albums.Json) : M unit :=
  fun w =>
    if config_writable w then
      (Ok tt,
       {| google_token_pickle := google_token_pickle w;
          adobe_token_json := adobe_token_json w;
          config_json := StoredConfig config;
          config_writable := config_writable w;
          tokens_dir_writable := tokens_dir_writable w;
          clock := clock w |},
       [])
    else (Raise OSError, w, []).

(** [datetime.now()] *)
Definition datetime_now : M Z := fun w => (Ok (clock w), w, []).

(** ** Python's operators on the loaded configuration *)

(** [d[k] = v] on the entries of a dict: the value of an existing key is
    replaced where it stands, a new key goes to the end. *)
Fixpoint set_entry (k : string) (v : Albums.Json) (entries : list (string * Albums.Json))
  : list (string * Albums.Json) :=
  match entries with
  | [] => [(k, v)]
  | (k', v') :: rest =>
      if String.eqb k' k then (k, v) :: rest else (k', v') :: set_entry k v rest
  end.

(** [config[service] = config_data] *)
Definition py_setitem (config : Albums.Json) (k : string) (v : Albums.Json)
  : M Albums.Json :=
  match config with
  | Albums.JObj entries => ret (Albums.JObj (set_entry k v entries))
  | _ => raise TypeError
  end.

(** [config.get(service, {})] *)
Definition py_get (config : Albums.Json) (k : string) : M Albums.Json :=
  match config with
  | Albums.JObj entries =>
      ret (match Albums.lookup k entries with
           | Some v => v
           | None => Albums.JObj []
           end)
  | _ => raise AttributeError
  end.

(** ** [load_config]  (token_manager.py, 31-43) *)
Definition load_config : M Albums.Json :=
  w <- get ;;
  match config_json w with
  | NoConfig => ret (Albums.JObj [])
  | file =>
      try_except
        (match file with
         | StoredConfig v => ret v
         | _ => raise JSONDecodeError
         end)
        (fun e => print (CouldNotLoadConfig e) ;; ret (Albums.JObj []))
  end.

(** ** [save_config]  (token_manager.py, 19-29) *)
Definition save_config (service : string) (config_data : Albums.Json) : M unit :=
  config <- load_config ;;
  config <- py_setitem config service config_data ;;
  write_config config ;;
  print (SavedConfiguration service).

(** ** [get_config]  (token_manager.py, 45-50) *)
Definition get_config (service : string) : M Albums.Json :=
  config <- load_config ;;
  py_get config service.

(** ** [is_authenticated]  (token_manager.py, 52-78) *)
Definition is_authenticated (service : string) : M bool :=
  if String.eqb service "google" then
    os_path_exists (tokens_dir +++ "/google_token.pickle")
  else if String.eqb service "adobe" then
    let token_file := tokens_dir +++ "/adobe_token.json" in
    found <- os_path_exists token_file ;;
    if negb found then ret false
    else
      (* check if Adobe token is still valid *)
      try_except
        (w <- get ;;
         token_data <-
           match adobe_token_json w with
           | Auth.Stored d => ret d
           | _ => raise JSONDecodeError
           end ;;
         match Auth.td_expires_at token_data with
         | Auth.ExpMissing => ret false
         | Auth.ExpMalformed => raise InvalidIsoFormat
         | Auth.ExpTime expires_at =>
             now <- datetime_now ;;
             (* consider valid if expires more than 5 minutes from now *)
             ret (now <? expires_at - Auth.timedelta_minutes 5)%Z
         end)
        (fun _ => ret false)                (* a bare [except:] *)
  else ret false.

(** ** [clear_tokens]  (token_manager.py, 80-100) *)
Definition clear_tokens (service : option string) : M unit :=
  let files_to_remove :=
    if PyStr.truthy service then
      let service := dict_get service EmptyString in
      if String.eqb service "google" then [tokens_dir +++ "/google_token.pickle"]
      else if String.eqb service "adobe" then [tokens_dir +++ "/adobe_token.json"]
      else []
    else
      (* clear all tokens *)
      [tokens_dir +++ "/google_token.pickle"; tokens_dir +++ "/adobe_token.json"] in
  for_each files_to_remove
    (fun file_path =>
       found <- os_path_exists file_path ;;
       if found : bool then
         os_remove file_path ;;
         print (Removed file_path)
       else ret tt).

(** ** [get_auth_status]  (token_manager.py, 102-111) *)
Definition get_auth_status : M (list (string * bool)) :=
  google <- is_authenticated "google" ;;
  adobe <- is_authenticated "adobe" ;;
  ret [("google", google); ("adobe", adobe)].

(** [str.title()] on ASCII: the first letter of every run of letters in
    upper case, the others in lower case. *)
Definition is_upper (c : ascii) : bool :=
  ((65 <=? nat_of_ascii c) && (nat_of_ascii c <=? 90))%nat.
Definition is_lower (c : ascii) : bool :=
  ((97 <=? nat_of_ascii c) && (nat_of_ascii c <=? 122))%nat.
Definition to_upper (c : ascii) : ascii :=
  if is_lower c then ascii_of_nat (nat_of_ascii c - 32) else c.
Definition to_lower (c : ascii) : ascii :=
  if is_upper c then ascii_of_nat (nat_of_ascii c + 32) else c.

Fixpoint title_from (after_letter : bool) (s : string) : string :=
  match s with
  | EmptyString => EmptyString
  | String c s' =>
      if is_upper c || is_lower c
      then String (if after_letter then to_lower c else to_upper c) (title_from true s')
      else String c (title_from false s')
  end.

Definition title (s : string) : string := title_from false s.

(** ** [print_status]  (token_manager.py, 113-127) *)
Definition print_status : M unit :=
  print StatusHeader ;;
  print Rule ;;
  status <- get_auth_status ;;
  for_each status
    (fun entry =>
       let '(service, authenticated) := entry in
       print (ServiceStatus (title service) authenticated)) ;;
  print Rule.

(** ** Vocabulary for the statements below *)

(** The entries a configuration is saved over: those of the file when it
    holds an object, none when it is missing or cannot be read. *)
Definition entries_before (file : ConfigFile) : list (string * Albums.Json) :=
  match file with
  | StoredConfig (Albums.JObj entries) => entries
  | _ => []
  end.

(** The file holds something other than a JSON object. *)
Definition holds_no_object (file : ConfigFile) : bool :=
  match file with
  | StoredConfig (Albums.JObj _) => false
  | StoredConfig _ => true
  | _ => false
  end.

(** What [is_authenticated('adobe')] makes of the token file at time [now]. *)
Definition adobe_token_valid (file : Auth.TokenFile) (now : Z) : bool :=
  match file with
  | Auth.Stored d =>
      match Auth.td_expires_at d with
      | Auth.ExpTime expires_at => (now <? expires_at - Auth.timedelta_minutes 5)%Z
      | _ => false
      end
  | _ => false
  end.

(** The world once the tokens [clear_tokens(service)] is to remove are gone. *)
Definition without_tokens (google adobe : bool) (w : World) : World :=
  {| google_token_pickle := if google then false else google_token_pickle w;
     adobe_token_json := if adobe then Auth.NoFile else adobe_token_json w;
     config_json := config_json w;
     config_writable := config_writable w;
     tokens_dir_writable := tokens_dir_writable w;
     clock := clock w |}.

(** [clear_tokens(service)] is asked to remove the token of [name]. *)
Definition clears (service : option string) (name : string) : bool :=
  negb (PyStr.truthy service) || String.eqb (dict_get service EmptyString) name.

(** The manager's view of the files an [AdobeLightroomAuth] works on. *)
Definition beside (w : Auth.World) (google : bool) (config : ConfigFile) : World :=
  {| google_token_pickle := google;
     adobe_token_json := Auth.token_file w;
     config_json := config;
     config_writable := true;
     tokens_dir_writable := true;
     clock := Auth.clock w |}.

(** What [authenticate] checks before it uses the existing token. *)
Definition stored_token_usable : Auth.M bool :=
  loaded <- Auth._load_tokens ;;
  if loaded : bool then Auth._is_token_valid else ret false.

(** A world with both tokens and a configuration for one service. *)
Definition example_world : World :=
  {| google_token_pickle := true;
     adobe_token_json :=
       Auth.Stored {| Auth.td_access_token := Some "stored-token";
                      Auth.td_refresh_token := Some "refresh-token";
                      Auth.td_expires_at := Auth.ExpTime 3600000000;
                      Auth.td_token_type := Some "Bearer" |};
     config_json := StoredConfig (Albums.JObj [("google", Albums.JStr "folder")]);
     config_writable := true;
     tokens_dir_writable := true;
     clock := 0 |}.

End TokenManager.

(* ================================================================== *)
(** * [LightroomAlbumSelector]: the catalog and the selection loop
      (menus.py, 177-213 and 314-481; main.py, 57-65) *)

Module Selection.
Import Py.
Local Open Scope py_scope.
Local Open Scope Z_scope.

(** What surrounds the selector: the catalog service, the user at the
    prompt, and the two library calls whose outcome depends on the values
    at hand. *)
Record Env : Type := {
  catalog : Albums.Env;
  (* [Prompt.ask(message, choices=valid_choices).lower()] at the n-th
     prompt of the run; the message is fixed by the choices *)
  ask : nat -> list string -> string;
  (* [int(user_input)]; [None] when it raises [ValueError] *)
  py_int : string -> option Z;
  (* building and printing the table of a page: the exception it raises,
     if any (a field that cannot be sliced or rendered) *)
  table_error : list Albums.Album -> option exn
}.

(** The fields of the selector that change: [self.headers] and
    [self.catalog_id] ([JNull] is [None]). *)
Record Self : Type := {
  headers : option Http.Headers;
  catalog_id : Albums.Json
}.

Record World : Type := {
  self : Self;
  sent : list Albums.Request;          (* the requests made so far *)
  prompts : nat                        (* the prompts answered so far *)
}.

Inductive Msg : Type :=
| Listing (m : Albums.Msg)             (* a line printed by [list_albums] *)
| SelectionHeader
| SelectionRule                        (* ["=" * 60] *)
| GettingCatalog
| CatalogStatus (status : Z)
| CatalogIdLine (id : Albums.Json)
| NoIdInResponse (keys : list string)
| CatalogAuthenticationFailed
| CatalogAccessDenied
| CatalogError (status : Z) (text : string)
| CatalogException (e : exn)
| FailedToGetCatalog
| NoAlbumsFound                        (* two lines *)
| AlbumTable (catalog_id : Albums.Json) (first last : Z) (rows : list Albums.Album)
| NoPreviousPage
| NoMoreAlbums
| SelectedAlbumLines (name id catalog_id : Albums.Json)   (* three lines *)
| InvalidChoice
| InvalidInput
| Step3Header
| NoAlbumSelected.                     (* "No album selected, exiting" *)

Definition M : Type -> Type := Py.M World Msg.

Definition api_base : string := "https://lr.adobe.io".
Definition display_page_size : Z := 25.

(** ** The selector as [list_albums] sees it

    [list_albums] reads [self.catalog_id] for its truth value and inside
    an f-string; [str] of a truthy JSON value is never empty. *)
Definition selector (env : Env) (s : Self) : Albums.Selector :=
  {| Albums.api_base := api_base;
     Albums.self_headers := headers s;
     Albums.catalog_id :=
       if Albums.truthy (catalog_id s)
       then Some (Albums.format (catalog env) (catalog_id s))
       else None |}.

(** A computation of the listing module, run on the requests of this world. *)
Definition lift {A} (m : Albums.M A) : M A :=
  fun w =>
    let '(r, sent', out) := m (sent w) in
    (r, {| self := self w; sent := sent'; prompts := prompts w |}, map Listing out).

Definition get_self : M Self := fun w => (Ok (self w), w, []).

Definition set_headers (h : option Http.Headers) : M unit :=
  fun w =>
    (Ok tt,
     {| self := {| headers := h; catalog_id := catalog_id (self w) |};
        sent := sent w; prompts := prompts w |}, []).

Definition set_catalog_id (v : Albums.Json) : M unit :=
  fun w =>
    (Ok tt,
     {| self := {| headers := headers (self w); catalog_id := v |};
        sent := sent w; prompts := prompts w |}, []).

(** [Prompt.ask(..., choices=valid_choices).lower()] *)
Definition prompt_ask (env : Env) (valid_choices : list string) : M string :=
  fun w =>
    (Ok (ask env (prompts w) valid_choices),
     {| self := self w; sent := sent w; prompts := S (prompts w) |}, []).

(** [self.list_albums(limit, offset, next_link)] *)
Definition list_albums (env : Env) (limit : option Z) (offset : Z)
    (next_link : option string) : M (list Albums.Album * option string) :=
  s <- get_self ;;
  lift (Albums.list_albums (catalog env) (selector env s) limit offset next_link).

(** ** [get_catalog_id]  (menus.py, 177-213)

    [auth_headers] is what [self.adobe_auth.get_headers()] gives at the
    time of the call. *)
Definition get_catalog_id (env : Env) (auth_headers : option Http.Headers) : M bool :=
  (* ensure headers are up-to-date here too in case of stale token *)
  set_headers auth_headers ;;
  print GettingCatalog ;;
  try_except
    (s <- get_self ;;
     response <- lift (Albums.requests_get (catalog env)
                         {| Albums.url := api_base +++ "/v2/catalog";
                            Albums.headers := headers s;
                            Albums.params := [] |}) ;;
     let status := Http.status_code response in
     print (CatalogStatus status) ;;
     if status =? 200 then
       data <- lift (Albums._parse_adobe_response (catalog env) (Http.text response)) ;;
       has_id <- lift (Albums.py_in "id" data) ;;
       if has_id : bool then
         v <- lift (Albums.py_getitem data "id") ;;
         set_catalog_id v ;;
         print (CatalogIdLine v) ;;
         ret true
       else
         (* [list(data.keys())] *)
         match data with
         | Albums.JObj entries =>
             print (NoIdInResponse (map fst entries)) ;;
             ret false
         | _ => raise AttributeError
         end
     else if status =? 401 then
       print CatalogAuthenticationFailed ;; ret false
     else if status =? 403 then
       print CatalogAccessDenied ;; ret false
     else
       print (CatalogError status (Http.text response)) ;; ret false)
    (fun e => print (CatalogException e) ;; ret false).

(** ** [select_album]  (menus.py, 314-481)

    The spinners of [rich.progress] around the requests show nothing that
    stays on the console and are left out. *)

(** What [select_album] returns: the pair [(None, None)], or the triple
    [(id, name, catalog_id)] of the album chosen. *)
Inductive Selected : Type :=
| NothingSelected
| SelectedAlbum (album_id album_name catalog_id : Albums.Json).

(** [len] of the tuple returned. *)
Definition tuple_length (s : Selected) : nat :=
  match s with
  | NothingSelected => 2
  | SelectedAlbum _ _ _ => 3
  end.

(** The variables of the loop: [current_page_albums], [next_api_url],
    [previous_page_states] (a stack, its top at the end of the list) and
    [current_api_offset]. *)
Record Pager : Type := {
  current_page_albums : list Albums.Album;
  next_api_url : option string;
  previous_page_states : list (Z * option string);
  current_api_offset : Z
}.

(** One turn of the [while True] loop: it goes round again with new
    variables, or returns. *)
Inductive Turn : Type :=
| Continue (p : Pager)
| Return (s : Selected).

(** [str(i)] *)
Definition str_of_nat (i : nat) : string := NilZero.string_of_uint (Nat.to_uint i).

Definition valid_choices (p : Pager) : list string :=
  (match previous_page_states p with [] => [] | _ :: _ => ["p"] end)
  ++ (if PyStr.truthy (next_api_url p) then ["n"] else [])
  ++ map str_of_nat (seq 1 (List.length (current_page_albums p))).

(** The table of the page: printed, unless building it raises. *)
Definition show_table (env : Env) (p : Pager) : M unit :=
  match table_error env (current_page_albums p) with
  | Some e => raise e
  | None =>
      s <- get_self ;;
      print (AlbumTable (catalog_id s)
               (current_api_offset p + 1)
               (current_api_offset p + Z.of_nat (List.length (current_page_albums p)))
               (current_page_albums p))
  end.

Definition turn (env : Env) (p : Pager) : M Turn :=
  let num_albums_on_current_page := Z.of_nat (List.length (current_page_albums p)) in
  show_table env p ;;
  user_input <- prompt_ask env (valid_choices p) ;;
  if String.eqb user_input "p" then
    match rev (previous_page_states p) with
    | (prev_offset, prev_next_url) :: below =>
        (* pop the last state from the stack to go back *)
        fetched <- list_albums env (Some display_page_size) prev_offset None ;;
        ret (Continue {| current_page_albums := fst fetched;
                         next_api_url := prev_next_url;
                         previous_page_states := rev below;
                         current_api_offset := prev_offset |})
    | [] =>
        print NoPreviousPage ;;
        ret (Continue p)
    end
  else if String.eqb user_input "n" then
    if PyStr.truthy (next_api_url p) then
      (* save the state of the current page, then follow the link *)
      fetched <- list_albums env None 0 (next_api_url p) ;;
      ret (Continue {| current_page_albums := fst fetched;
                       next_api_url := snd fetched;
                       previous_page_states :=
                         previous_page_states p
                         ++ [(current_api_offset p, next_api_url p)];
                       current_api_offset := current_api_offset p + display_page_size |})
    else
      print NoMoreAlbums ;;
      ret (Continue p)
  else
    (* the user entered a number to select an album *)
    match py_int env user_input with
    | Some n =>
        let choice_idx := n - 1 in
        if (0 <=? choice_idx) && (choice_idx <? num_albums_on_current_page) then
          match nth_error (current_page_albums p) (Z.to_nat choice_idx) with
          | Some selected_album =>
              s <- get_self ;;
              print (SelectedAlbumLines (Albums.name selected_album)
                       (Albums.id selected_album) (catalog_id s)) ;;
              ret (Return (SelectedAlbum (Albums.id selected_album)
                             (Albums.name selected_album) (catalog_id s)))
          | None => raise KeyError           (* [IndexError]: not reached *)
          end
        else
          print InvalidChoice ;;
          ret (Continue p)
    | None =>
        print InvalidInput ;;
        ret (Continue p)
    end.

(** The loop, for at most [fuel] turns; [None] when it is still running. *)
Fixpoint selection_loop (env : Env) (fuel : nat) (p : Pager) : M (option Selected) :=
  match fuel with
  | O => ret None
  | S fuel' =>
      t <- turn env p ;;
      match t with
      | Return s => ret (Some s)
      | Continue p' => selection_loop env fuel' p'
      end
  end.

Definition select_album (env : Env) (auth_headers : option Http.Headers) (fuel : nat)
  : M (option Selected) :=
  print SelectionHeader ;;
  print SelectionRule ;;
  (* step 1: get catalog ID *)
  found <- get_catalog_id env auth_headers ;;
  if negb found then
    print FailedToGetCatalog ;;
    ret (Some NothingSelected)
  else
    (* fetch the first batch of albums using offset 0 and the display page size *)
    let current_api_offset := 0 in
    fetched <- list_albums env (Some display_page_size) current_api_offset None ;;
    match fst fetched with
    | [] =>
        print NoAlbumsFound ;;
        ret (Some NothingSelected)
    | _ :: _ =>
        selection_loop env fuel
          {| current_page_albums := fst fetched;
             next_api_url := snd fetched;
             previous_page_states := [];
             current_api_offset := current_api_offset |}
    end.

(** ** Step 3 of [main]  (main.py, 57-65)

    [album_id, album_name, catalogue_id = album_selector.select_album()]
    unpacks the tuple into three names, which raises [ValueError] for a
    tuple of another length. *)
Inductive Step3 : Type :=
| CannotUnpack (got : nat)             (* the [ValueError] of the unpacking *)
| Exited                               (* [return] after "No album selected" *)
| Proceed (album_id album_name catalogue_id : Albums.Json).

Definition main_step3 (env : Env) (auth_headers : option Http.Headers) (fuel : nat)
  : M (option Step3) :=
  print Step3Header ;;
  (* [LightroomAlbumSelector(adobe_auth)] *)
  set_headers auth_headers ;;
  set_catalog_id Albums.JNull ;;
  selected <- select_album env auth_headers fuel ;;
  match selected with
  | None => ret None
  | Some NothingSelected => ret (Some (CannotUnpack (tuple_length NothingSelected)))
  | Some (SelectedAlbum album_id album_name catalogue_id) =>
      if negb (Albums.truthy album_id) then
        print NoAlbumSelected ;;
        ret (Some Exited)
      else ret (Some (Proceed album_id album_name catalogue_id))
  end.

(** ** Vocabulary for the statements below *)

(** The stack holds the offsets [0, 25, 50, ...] of the pages left behind,
    each with the link that led on from it, and the page shown is the next
    one. *)
Fixpoint stacked (from : Z) (states : list (Z * option string)) : Prop :=
  match states with
  | [] => True
  | (offset, link) :: above =>
      offset = from /\ PyStr.truthy link = true /\
      stacked (from + display_page_size) above
  end.

Definition paged (p : Pager) : Prop :=
  stacked 0 (previous_page_states p) /\
  current_api_offset p
  = display_page_size * Z.of_nat (List.length (previous_page_states p)).

(** Every album of the page has a truthy id. *)
Definition identified (p : Pager) : Prop :=
  Forall (fun album => Albums.truthy (Albums.id album) = true) (current_page_albums p).

(** What a turn leaves of a property of the loop variables. *)
Definition carried (Q : Pager -> Prop) (t : Turn) : Prop :=
  match t with
  | Continue p => Q p
  | Return _ => True
  end.

(** A user who always takes the first choice offered, and a catalog with
    one page of two albums. *)
Definition first_choice_env : Env :=
  {| catalog :=
       {| Albums.http_get := fun _ _ =>
            Http.Answer {| Http.status_code := 200;
                           Http.content_type := Some "application/json";
                           Http.text := "while (1) {}{}" |};
          Albums.json_loads := fun _ =>
            Some (Albums.JObj
                    [("id", Albums.JStr "catalog");
                     ("resources",
                      Albums.JArr [Albums.JObj [("id", Albums.JStr "a1")];
                                   Albums.JObj [("id", Albums.JStr "a2")]])]);
          Albums.str_of := fun _ => EmptyString |};
     ask := fun _ choices => hd EmptyString choices;
     py_int := fun s => if String.eqb s "1" then Some 1 else None;
     table_error := fun _ => None |}.


Definition new_world : World :=
  {| self := {| headers := None; catalog_id := Albums.JNull |};
     sent := []; prompts := 0 |}.

End Selection.

(* ================================================================== *)
(** * [GoogleDriveAuth]  (google_auth.py, 15-116) *)

Module GoogleAuth.
Import Py.
Local Open Scope py_scope.

(** What the code reads of a [Credentials] object. *)
Record Credentials : Type := {
  valid : bool;
  expired : bool;
  refresh_token : option string
}.

(** [tokens/google_token.pickle] *)
Inductive PickleFile : Type :=
| NoPickle                             (* [os.path.exists] is false *)
| UnreadablePickle                     (* opening or [pickle.load] raises *)
| Pickled (c : Credentials).

(** The ['user'] entry of the answer of [about().get(fields="user")]. *)
Record User : Type := {
  displayName : option string;
  emailAddress : option string
}.

(** Google's libraries.  [None] stands for an exception; its class is not
    modelled, every handler of this module catches [Exception]. *)
Record Env : Type := {
  (* [credentials.refresh(Request())]: the credentials afterwards *)
  refresh : Credentials -> option Credentials;
  (* [InstalledAppFlow.from_client_secrets_file(...).run_local_server(port=0)] *)
  run_local_server : option Credentials;
  (* does [build('drive', 'v3', credentials=...)] return a service *)
  build : Credentials -> bool;
  (* [service.about().get(fields="user").execute()]: the answer, which may
     lack the ['user'] entry *)
  about : Credentials -> option (option User)
}.

(** The instance; a service is known by the credentials it was built with. *)
Record Self : Type := {
  credentials : option Credentials;
  service : option Credentials
}.

Record World : Type := {
  self : Self;
  token_file : PickleFile;
  token_writable : bool;               (* can the token file be written *)
  credentials_file : bool              (* does [google_credentials.json] exist *)
}.

Inductive Msg : Type :=
| Authenticating
| FoundExistingToken
| RefreshingExpiredToken
| FailedToRefreshToken (e : exn)
| AuthenticationSuccessful
| FailedToBuildService (e : exn)
| StartingOAuthFlow
| CredentialsFileNotFound              (* three lines *)
| OAuthFlowFailed (e : exn)
| ConnectedAs (display_name email : string)
| ConnectionTestFailed (e : exn).

Definition M : Type -> Type := Py.M World Msg.

(** ** State access *)

Definition get_self : M Self := fun w => (Ok (self w), w, []).

Definition set_credentials (c : Credentials) : M unit :=
  fun w =>
    (Ok tt,
     {| self := {| credentials := Some c; service := service (self w) |};
        token_file := token_file w; token_writable := token_writable w;
        credentials_file := credentials_file w |}, []).

Definition set_service (c : Credentials) : M unit :=
  fun w =>
    (Ok tt,
     {| self := {| credentials := credentials (self w); service := Some c |};
        token_file := token_file w; token_writable := token_writable w;
        credentials_file := credentials_file w |}, []).

(** [with open(self.token_file, 'rb') as token: pickle.load(token)] *)
Definition pickle_load : M Credentials :=
  fun w =>
    match token_file w with
    | Pickled c => (Ok c, w, [])
    | _ => (Raise OSError, w, [])
    end.

(** [with open(self.token_file, 'wb') as token: pickle.dump(c, token)] *)
Definition pickle_dump (c : Credentials) : M unit :=
  fun w =>
    if token_writable w then
      (Ok tt,
       {| self := self w; token_file := Pickled c;
          token_writable := token_writable w;
          credentials_file := credentials_file w |}, [])
    else (Raise OSError, w, []).

(** [self.credentials.refresh(Request())], which changes the object in place *)
Definition credentials_refresh (env : Env) (c : Credentials) : M unit :=
  match refresh env c with
  | Some c' => set_credentials c'
  | None => raise RequestException
  end.

(** ** [_do_oauth_flow]  (google_auth.py, 65-89) *)
Definition _do_oauth_flow (env : Env) : M bool :=
  print StartingOAuthFlow ;;
  w <- get ;;
  if negb (credentials_file w) then
    print CredentialsFileNotFound ;;
    ret false
  else
    try_except
      (c <- match run_local_server env with
            | Some c => ret c
            | None => raise OSError
            end ;;
       set_credentials c ;;
       (* save credentials *)
       pickle_dump c ;;
       ret true)
      (fun e => print (OAuthFlowFailed e) ;; ret false).

(** ** [authenticate]  (google_auth.py, 27-63)

    [early] holds the value of a [return] taken before the service is
    built. *)
Definition authenticate (env : Env) : M bool :=
  print Authenticating ;;
  (* check if we have valid credentials already *)
  w <- get ;;
  match token_file w with
  | NoPickle => ret tt
  | _ =>
      print FoundExistingToken ;;
      c <- pickle_load ;;
      set_credentials c
  end ;;
  s <- get_self ;;
  early <-
    match credentials s with
    | Some c =>
        if negb (valid c) then
          if expired c && PyStr.truthy (refresh_token c) then
            print RefreshingExpiredToken ;;
            failed <-
              try_except
                (credentials_refresh env c ;; ret None)
                (fun e =>
                   print (FailedToRefreshToken e) ;;
                   flow <- _do_oauth_flow env ;;
                   ret (Some flow)) ;;
            match failed with
            | Some flow => ret (Some flow)
            | None =>
                (* save the credentials for next time *)
                s <- get_self ;;
                match credentials s with
                | Some c' => pickle_dump c'
                | None => ret tt
                end ;;
                ret None
            end
          else
            flow <- _do_oauth_flow env ;;
            ret (Some flow)
        else ret None
    | None =>
        flow <- _do_oauth_flow env ;;
        ret (Some flow)
    end ;;
  match early with
  | Some flow => ret flow
  | None =>
      (* build the service *)
      s <- get_self ;;
      try_except
        (match credentials s with
         | Some c =>
             if build env c then
               set_service c ;;
               print AuthenticationSuccessful ;;
               ret true
             else raise OSError
         | None => raise AttributeError
         end)
        (fun e => print (FailedToBuildService e) ;; ret false)
  end.

(** ** [get_service]  (google_auth.py, 91-98) *)
Definition get_service (env : Env) : M (option Credentials) :=
  s <- get_self ;;
  match service s with
  | Some _ => ret (service s)
  | None =>
      authenticated <- authenticate env ;;
      if negb authenticated then ret None
      else
        s <- get_self ;;
        ret (service s)
  end.

(** ** [test_connection]  (google_auth.py, 100-116) *)
Definition test_connection (env : Env) : M bool :=
  found <- get_service env ;;
  match found with
  | None => ret false
  | Some c =>
      try_except
        (answer <- match about env c with
                   | Some answer => ret answer
                   | None => raise OSError
                   end ;;
         let user := dict_get answer {| displayName := None; emailAddress := None |} in
         print (ConnectedAs (dict_get (displayName user) "Unknown")
                            (dict_get (emailAddress user) "Unknown")) ;;
         ret true)
        (fun e => print (ConnectionTestFailed e) ;; ret false)
  end.

(** ** Vocabulary for the statements below *)


(** [m] does not change whether the token file can be written. *)
Definition keeps_writable {A} (m : M A) : Prop :=
  forall w, token_writable (world (m w)) = token_writable w.

(** An instance just built. *)
Definition new_self : Self := {| credentials := None; service := None |}.

(** A first run: no token yet, the client secrets in place. *)
Definition first_run : World :=
  {| self := new_self; token_file := NoPickle; token_writable := true;
     credentials_file := true |}.

Definition fresh_credentials : Credentials :=
  {| valid := true; expired := false; refresh_token := Some "refresh" |}.

(** Google's side when all goes well. *)
Definition consenting_env : Env :=
  {| refresh := fun c => Some {| valid := true; expired := false;
                                 refresh_token := refresh_token c |};
     run_local_server := Some fresh_credentials;
     build := fun _ => true;
     about := fun _ => Some (Some {| displayName := Some "User";
                                     emailAddress := Some "user@example.com" |}) |}.

End GoogleAuth.

(* ================================================================== *)
(* ================================================================== *)
(** * Properties *)

(** ** Strings *)

Module PyStrFacts.
Import PyStr.

Lemma drop_length_append (p s : string) : drop (String.length p) (p +++ s) = s.
Proof. induction p as [|a p IH]; simpl; [reflexivity | exact IH]. Qed.

Lemma prefix_append (p s : string) : String.prefix p (p +++ s) = true.
Proof.
  induction p as [|a p IH]; simpl.
  - destruct s; reflexivity.
  - destruct (Ascii.ascii_dec a a); [exact IH | congruence].
Qed.


End PyStrFacts.

(** ** Response unwrapping *)

Module StripFacts.
Import Strip.

Lemma strip_no_prefix (body : string) :
  PyStr.startswith body adobe_prefix = false ->
  _strip_adobe_prefix body = body.
Proof.
  unfold _strip_adobe_prefix, adobe_prefix. intros ->. reflexivity.
Qed.

Lemma strip_prefixed (rest : string) :
  _strip_adobe_prefix (adobe_prefix +++ rest) = rest.
Proof.
  unfold _strip_adobe_prefix, PyStr.startswith.
  change "while (1) {}" with adobe_prefix.
  rewrite PyStrFacts.prefix_append.
  change 12 with (String.length adobe_prefix).
  apply PyStrFacts.drop_length_append.
Qed.

(** C6, as stated, fails: a body that carries the prefix twice loses one
    prefix per application, so stripping twice differs from stripping once. *)
Lemma strip_twice_differs_on_double_prefix :
  let body := "while (1) {}while (1) {}[]" in
  _strip_adobe_prefix body = "while (1) {}[]" /\
  _strip_adobe_prefix (_strip_adobe_prefix body) = "[]" /\
  _strip_adobe_prefix (_strip_adobe_prefix body) <> _strip_adobe_prefix body.
Proof.
  cbv zeta. repeat split; try reflexivity.
  vm_compute. discriminate.
Qed.

(** C6, amended: a body that does not start with the literal prefix
    [while (1) {}] is returned unchanged; therefore stripping twice equals
    stripping once whenever the body stripped once does not itself start
    with the prefix. *)
Theorem strip_unprefixed_is_noop (body : string) :
  (PyStr.startswith body adobe_prefix = false ->
   _strip_adobe_prefix body = body) /\
  (PyStr.startswith (_strip_adobe_prefix body) adobe_prefix = false ->
   _strip_adobe_prefix (_strip_adobe_prefix body) = _strip_adobe_prefix body).
Proof.
  split; intros H; apply strip_no_prefix; exact H.
Qed.

Lemma strip_unprefixed_is_noop_witness :
  _strip_adobe_prefix "{}" = "{}" /\
  _strip_adobe_prefix (_strip_adobe_prefix "while (1) {}{}")
  = _strip_adobe_prefix "while (1) {}{}".
Proof.
  split.
  - apply (proj1 (strip_unprefixed_is_noop "{}")). reflexivity.
  - apply (proj2 (strip_unprefixed_is_noop "while (1) {}{}")). reflexivity.
Defined.

End StripFacts.

(** ** Path resolution *)

Module DrivePathFacts.
Import Py DrivePath.

Section Walk.
Variable env : Env.





End Walk.


Example get_folder_path_cycle :
  result (get_folder_path cyclic_env 3 "A" [])
  = Ok "📁 Unknown Path (B) / a / b / a".
Proof. reflexivity. Qed.


End DrivePathFacts.

(** ** The effect monad *)

Module PyFacts.
Import Py.

Section Laws.
Context {W Msg : Type}.
Let M : Type -> Type := Py.M W Msg.

Lemma bind_run {A B} (m : M A) (k : A -> M B) (w w1 : W) (a : A) (o1 : list Msg) :
  m w = (Ok a, w1, o1) ->
  bind m k w = (result (k a w1), world (k a w1), o1 ++ output (k a w1)).
Proof.
  intros H. unfold bind. rewrite H.
  destruct (k a w1) as [[r w2] o2]. reflexivity.
Qed.


Lemma bind_ok_inv {A B} (m : M A) (k : A -> M B) (w w' : W) (b : B) (out : list Msg) :
  bind m k w = (Ok b, w', out) ->
  exists a w1 o1 o2,
    m w = (Ok a, w1, o1) /\ k a w1 = (Ok b, w', o2) /\ out = o1 ++ o2.
Proof.
  unfold bind. intros H.
  destruct (m w) as [[[a|e] w1] o1]; [|discriminate H].
  destruct (k a w1) as [[r w2] o2] eqn:Ek. injection H as -> -> <-.
  exists a, w1, o1, o2. auto.
Qed.

Lemma try_ok_inv {A} (m : M A) (h : exn -> M A) (w w' : W) (a : A) (out : list Msg) :
  try_except m h w = (Ok a, w', out) ->
  m w = (Ok a, w', out) \/
  exists e w1 o1 o2,
    m w = (Raise e, w1, o1) /\ h e w1 = (Ok a, w', o2) /\ out = o1 ++ o2.
Proof.
  unfold try_except. intros H.
  destruct (m w) as [[[a0|e] w1] o1].
  - left. exact H.
  - right. destruct (h e w1) as [[r w2] o2] eqn:Eh. injection H as -> -> <-.
    exists e, w1, o1, o2. auto.
Qed.


(** *** Computations that never raise *)

Lemma never_raises_ret {A} (a : A) : never_raises (ret a : M A).
Proof. intros w. do 3 eexists. reflexivity. Qed.

Lemma never_raises_print (m : Msg) : never_raises (print m : M unit).
Proof. intros w. do 3 eexists. reflexivity. Qed.

Lemma never_raises_bind {A B} (m : M A) (k : A -> M B) :
  never_raises m -> (forall a, never_raises (k a)) -> never_raises (bind m k).
Proof.
  intros Hm Hk w. destruct (Hm w) as (a & w1 & o1 & H1).
  destruct (Hk a w1) as (b & w2 & o2 & H2).
  exists b, w2, (o1 ++ o2). unfold bind. rewrite H1, H2. reflexivity.
Qed.

Lemma never_raises_try {A} (m : M A) (h : exn -> M A) :
  (forall e, never_raises (h e)) -> never_raises (try_except m h).
Proof.
  intros Hh w. unfold try_except.
  destruct (m w) as [[[a|e] w1] o1].
  - do 3 eexists. reflexivity.
  - destruct (Hh e w1) as (b & w2 & o2 & H2). rewrite H2.
    do 3 eexists. reflexivity.
Qed.


(** *** What a computation prints *)

Variable P : Msg -> Prop.








End Laws.

End PyFacts.

(** ** The transfer pipeline *)

Module SyncFacts.
Import Py Http Sync.

(** *** Lists: ranges and slices *)










(** *** No exception leaves the per-item routines *)

Section Items.
Variable env : Env.
Variable auth : AdobeAuth.




(** *** The per-item routines print no framing line *)







End Items.

(** *** The run, batch by batch *)

Section Run.
Variable env : Env.
Variable auth : AdobeAuth.
Variables album_id album_name catalogue_id : string.

Let item : DriveFile -> M unit := sync_file env auth album_id catalogue_id.




End Run.

(** *** One item *)

Section Item.
Variable env : Env.
Variable auth : AdobeAuth.




Lemma created_or_ok_passes (status : Z) :
  created_or_ok status = true -> raises_for_status status = false.
Proof.
  unfold created_or_ok, raises_for_status. cbn [existsb].
  destruct (Z.eqb_spec status 201) as [->|_]; [reflexivity|].
  destruct (Z.eqb_spec status 200) as [->|_]; [reflexivity | discriminate].
Qed.

(** Create and upload succeed; the answer to the associate call decides. *)
Lemma associate_answered
    (catalogue_id : string) (file_content : option bytes)
    (file_name album_id mime_type : string) (w : World) (r1 r2 r3 : Response) :
  bytes_truthy file_content = true ->
  PyStr.truthy (access_token auth) = true ->
  account_info auth <> None ->
  let asset_id := next_asset_id env w in
  let create := create_request env auth w catalogue_id file_name mime_type in
  let upload := upload_request auth catalogue_id asset_id mime_type file_content in
  let associate := associate_request auth catalogue_id album_id asset_id in
  adobe env (net w) create = Answer r1 ->
  created_or_ok (status_code r1) = true ->
  adobe env (net w ++ [CallAdobe create]) upload = Answer r2 ->
  created_or_ok (status_code r2) = true ->
  adobe env ((net w ++ [CallAdobe create]) ++ [CallAdobe upload]) associate = Answer r3 ->
  let run := _upload_file_to_lightroom env auth catalogue_id file_content
               file_name album_id mime_type w in
  net (world run)
  = ((net w ++ [CallAdobe create]) ++ [CallAdobe upload]) ++ [CallAdobe associate] /\
  (raises_for_status (status_code r3) = true ->
   result run = Ok false /\
   In (HTTPErrorUploading file_name (HTTPError (status_code r3) (text r3))) (output run) /\
   ~ In (SuccessfullyUploaded file_name) (output run)) /\
  (raises_for_status (status_code r3) = false ->
   result run = Ok true /\
   In (SuccessfullyUploaded file_name) (output run) /\
   (created_or_ok (status_code r3) = false ->
    In (WarningNotAddedToAlbum (status_code r3)) (output run))).
Proof.
  intros Hcontent Htoken Haccount asset_id create upload associate
    Hcreate Hok1 Hupload Hok2 Hassociate.
  subst asset_id create upload associate. cbv zeta.
  destruct (account_info auth) as [account|] eqn:Eaccount; [|congruence].
  unfold create_request in *. rewrite Eaccount in *. cbn [dict_get] in *.
  pose proof (created_or_ok_passes _ Hok1) as Hpass1.
  pose proof (created_or_ok_passes _ Hok2) as Hpass2.
  unfold _upload_file_to_lightroom. rewrite Hcontent.
  unfold make_authenticated_request, get_headers. rewrite Htoken.
  cbn [negb].
  unfold bind, try_except, print, ret, raise, uuid_uuid4, datetime_now, requests_request.
  rewrite Eaccount. cbv beta iota zeta. cbn [net minted clock].
  (* create *)
  match goal with
  | |- context [adobe env ?h ?req] =>
      destruct (adobe env h req) as [r'|] eqn:Eanswer;
      pose proof (eq_trans (eq_sym Eanswer) Hcreate) as Hsame;
      [injection Hsame as -> | discriminate Hsame]
  end.
  clear Eanswer. rewrite Hpass1. cbv beta iota zeta.
  destruct (PyStr.contains "application/json" (dict_get (content_type r1) EmptyString));
    cbv beta iota zeta; cbn [status_code]; rewrite Hok1;
    unfold log_call; cbn [negb net minted clock]; cbv beta iota zeta;
    (* upload *)
    match goal with
    | |- context [adobe env ?h ?req] =>
        destruct (adobe env h req) as [r'|] eqn:Eanswer;
        pose proof (eq_trans (eq_sym Eanswer) Hupload) as Hsame;
        [injection Hsame as -> | discriminate Hsame]
    end;
    clear Eanswer; rewrite Hpass2; cbv beta iota zeta;
    destruct (PyStr.contains "application/json" (dict_get (content_type r2) EmptyString));
    cbv beta iota zeta; cbn [status_code]; rewrite Hok2;
    cbn [negb net minted clock]; cbv beta iota zeta;
    (* associate *)
    match goal with
    | |- context [adobe env ?h ?req] =>
        destruct (adobe env h req) as [r'|] eqn:Eanswer;
        pose proof (eq_trans (eq_sym Eanswer) Hassociate) as Hsame;
        [injection Hsame as -> | discriminate Hsame]
    end;
    clear Eanswer;
    (split; [|split]; [|intros Hraise; rewrite Hraise ..]; cbv beta iota zeta).
  all: repeat match goal with
              | |- context [if ?c then _ else _] => destruct c eqn:?
              end;
       cbn [negb status_code]; cbv beta iota zeta;
       unfold result, world, output, log_call; cbn [fst snd net app].
  all: try reflexivity.
  all: repeat split; try reflexivity.
  all: try (intros Hin; repeat (destruct Hin as [Hin|Hin]; [discriminate Hin|]); exact Hin).
  all: try (intros _; cbn [In]; tauto).
  all: try (cbn [In]; tauto).
  all: intros Hwarn;
       match goal with
       | H : negb (created_or_ok _) = false |- _ =>
           cbn [status_code] in H; rewrite Hwarn in H; discriminate H
       end.
Qed.


End Item.

(** *** Concrete runs *)






(** C2 on the code: download, create and upload succeed and the associate
    call is answered with 500.  [raise_for_status] turns the answer into an
    [HTTPError] inside [make_authenticated_request], the warning branch of
    lines 173-174 is never reached, and the routine reports failure. *)
Theorem associate_500_reports_failure :
  let run := _upload_file_to_lightroom (env_by_phase 201 200 500) example_auth
               "catalog" (Some [x01%byte]) "a.jpg" "album" "image/jpeg"
               initial_world in
  let asset := "0f8fad5bd9cb469fa16570867728950e" in
  result run = Ok false /\
  map is_adobe_call (net (world run)) = [true; true; true] /\
  output run
  = [Uploading "a.jpg" "album";
     GeneratedAssetId asset;
     CreatingAsset "a.jpg" asset;
     AssetCreated;
     UploadingBinary "a.jpg";
     BinaryUploaded;
     AddingToAlbum "a.jpg" "album";
     RequestFailed "PUT" "https://lr.adobe.io/v2/catalogs/catalog/albums/album/assets"
       (HTTPError 500 "while (1) {}{}");
     HTTPErrorUploading "a.jpg" (HTTPError 500 "while (1) {}{}");
     HTTPErrorResponse "while (1) {}{}"].
Proof. cbv zeta. repeat split; reflexivity. Qed.

(** The warning branch is reached only by answers that [raise_for_status]
    lets through, such as 204: then the routine reports success and flags
    the association on its own line. *)
Example associate_204_is_degraded_success :
  let run := _upload_file_to_lightroom (env_by_phase 201 200 204) example_auth
               "catalog" (Some [x01%byte]) "a.jpg" "album" "image/jpeg"
               initial_world in
  result run = Ok true /\
  map is_adobe_call (net (world run)) = [true; true; true] /\
  In (WarningNotAddedToAlbum 204) (output run) /\
  In (SuccessfullyUploaded "a.jpg") (output run).
Proof. cbv zeta. repeat split; try reflexivity; cbn; tauto. Qed.

(** Twelve entries: three batches, of 5, 5 and 2. *)
Example twelve_entries_three_batches :
  map (@List.length DriveFile) (batches (repeat example_entry 12)) = [5; 5; 2].
Proof. reflexivity. Qed.

(** *** Listing the source folder *)

Lemma list_drive_files_never_raises (env : Env) (folder_id : string) :
  never_raises (list_drive_files env folder_id).
Proof.
  unfold list_drive_files.
  apply PyFacts.never_raises_bind; [apply PyFacts.never_raises_print|].
  intros _. apply PyFacts.never_raises_try.
  intros e. apply PyFacts.never_raises_bind; [apply PyFacts.never_raises_print|].
  intros _. apply PyFacts.never_raises_ret.
Qed.


End SyncFacts.

(** ** The flat listing *)

Module AlbumsFacts.
Import Py Albums.

(** *** Computations that leave the world alone *)

Section Pure.
Context {W Msg : Type}.





End Pure.









(** *** What one call of [list_albums] does *)

Section Listing.
Variable env : Env.
Variable self : Selector.






End Listing.


(** Without a cursor the same arguments do reach the request. *)
Example list_albums_offset_limit_without_cursor :
  listing_request example_selector (Some 25%Z) 50%Z None
  = {| url := "https://lr.adobe.io/v2/catalogs/catalog/albums";
       headers := self_headers example_selector;
       params := [("limit", 25%Z); ("offset", 50%Z)] |}.
Proof. reflexivity. Qed.

End AlbumsFacts.

(** ** Failed listings *)

Module ListingFacts.
Import Py.



End ListingFacts.

(** ** The token lifecycle *)

Module AuthFacts.
Import Py Auth.
Local Open Scope Z_scope.

Ltac crunch H :=
  repeat match type of H with
         | context [match ?x with _ => _ end] =>
             destruct x eqn:?; cbn [fst snd] in H; try discriminate H
         | context [if ?x then _ else _] =>
             destruct x eqn:?; cbn [fst snd] in H; try discriminate H
         end.

Ltac in_output :=
  repeat (progress (rewrite ?in_app_iff; cbn [In app])); tauto.

(** A token response that is saved fixes the expiry at [now] plus the
    lifetime it grants. *)
Lemma _save_tokens_true (token_response : PostBody) (w w' : World) (out : list Msg) :
  _save_tokens token_response w = (Ok true, w', out) ->
  exists r lifetime,
    token_response = Dict r /\
    granted_lifetime r = Some lifetime /\
    token_expires (self w') = Some (clock w + timedelta_seconds lifetime) /\
    clock w' = clock w /\
    In TokensSaved out.
Proof.
  intros H.
  unfold _save_tokens, try_except, bind, ret, raise, print, get_self, datetime_now,
    write_token_file, modify_self in H.
  destruct token_response as [| |r]; try discriminate H.
  unfold granted_lifetime.
  destruct (field_get (tr_expires_in r) (Some 3600)) as [lifetime|] eqn:Elife;
    try discriminate H.
  destruct (tr_access_token r); try discriminate H;
    destruct (disk_writable w); try discriminate H;
    injection H as <- <-;
    exists r, lifetime; repeat split; try reflexivity; cbn; tauto.
Qed.

Lemma _is_token_valid_run (w : World) :
  exists valid,
    _is_token_valid w = (Ok valid, w, []) /\
    (valid = true -> session_fresh w).
Proof.
  unfold _is_token_valid, bind, ret, get_self, datetime_now, session_fresh.
  destruct (token_expires (self w)) as [expires|] eqn:Eexp.
  - destruct (negb (PyStr.truthy (access_token (self w)))).
    + exists false. split; [reflexivity | discriminate].
    + eexists. split; [reflexivity|].
      intros Hvalid. apply Z.ltb_lt in Hvalid.
      exists expires. split; [reflexivity | exact Hvalid].
  - exists false. split; [reflexivity | discriminate].
Qed.

Lemma _load_tokens_run (w : World) :
  exists loaded w1 out,
    _load_tokens w = (Ok loaded, w1, out) /\ clock w1 = clock w /\
    posts w1 = posts w.
Proof.
  unfold _load_tokens, bind, try_except, ret, raise, print, get, get_self, modify_self.
  destruct (token_file w) as [| |d]; cbn.
  - do 3 eexists. repeat split; reflexivity.
  - do 3 eexists. repeat split; reflexivity.
  - destruct (td_expires_at d); cbn; do 3 eexists; repeat split; reflexivity.
Qed.

Lemma _refresh_access_token_true (env : Env) (w w' : World) (out : list Msg) :
  _refresh_access_token env w = (Ok true, w', out) ->
  just_granted env w w' /\ In TokensSaved out.
Proof.
  intros H.
  unfold _refresh_access_token, bind at 1, get_self in H.
  destruct (negb (PyStr.truthy (refresh_token (self w)))); [discriminate H|].
  unfold try_except, bind at 1, requests_post in H.
  destruct (token_endpoint env (posts w) _) as [|status text body] eqn:Epost;
    [discriminate H|].
  unfold bind, raise, ret in H.
  destruct (Http.raises_for_status status); [discriminate H|].
  unfold response_json, raise, ret in H.
  destruct body as [| |r]; try discriminate H;
    match type of H with
    | context [_save_tokens ?b ?w0] =>
        destruct (_save_tokens b w0) as [[[saved|e] w2] o2] eqn:Esave
    end; cbn in H;
    try (destruct (is_RequestException e); discriminate H);
    injection H as -> -> <-;
    apply _save_tokens_true in Esave;
    destruct Esave as (r' & lifetime & Hd & Hlife & Hexp & Hclock & Hsaved);
    try discriminate Hd.
  injection Hd as <-. split; [|in_output].
  unfold just_granted. do 6 eexists.
  split; [exact Epost|]. split; [exact Hlife|]. split; [exact Hexp | exact Hclock].
Qed.

Lemma _exchange_code_for_tokens_true
    (env : Env) (auth_code : string) (w w' : World) (out : list Msg) :
  _exchange_code_for_tokens env auth_code w = (Ok true, w', out) ->
  just_granted env w w' /\ In TokensSaved out.
Proof.
  intros H.
  unfold _exchange_code_for_tokens, bind at 1 2, print, get_self in H.
  unfold try_except, bind at 1, requests_post in H.
  destruct (token_endpoint env (posts w) _) as [|status text body] eqn:Epost;
    [discriminate H|].
  unfold bind, raise, ret, print in H.
  destruct (negb (status =? 200)); [discriminate H|].
  unfold response_json, raise, ret in H.
  destruct body as [| |r]; try discriminate H;
    match type of H with
    | context [_save_tokens ?b ?w0] =>
        destruct (_save_tokens b w0) as [[[saved|e] w2] o2] eqn:Esave
    end; cbn in H;
    try (destruct (is_RequestException e); discriminate H);
    destruct saved; try discriminate H;
    injection H as -> <-;
    apply _save_tokens_true in Esave;
    destruct Esave as (r' & lifetime & Hd & Hlife & Hexp & Hclock & Hsaved);
    try discriminate Hd.
  injection Hd as <-. split; [|in_output].
  unfold just_granted. do 6 eexists.
  split; [exact Epost|]. split; [exact Hlife|]. split; [exact Hexp | exact Hclock].
Qed.

Lemma just_granted_same_clock (env : Env) (w0 w w' : World) :
  clock w = clock w0 -> just_granted env w w' -> just_granted env w0 w'.
Proof.
  intros Hclock (history & post & status & text & r & lifetime & H1 & H2 & H3 & H4).
  unfold just_granted. exists history, post, status, text, r, lifetime.
  rewrite <- Hclock. auto.
Qed.

(** [H : bind m k w = (Ok b, w', out)] is split at the bind into [H1], the
    run of [m], and [H2], the run of the continuation. *)
Ltac inv_bind H H1 H2 :=
  apply PyFacts.bind_ok_inv in H;
  destruct H as (? & ? & ? & ? & H1 & H2 & ?); subst.

(** [H] is the run of a primitive whose result is plain to see. *)
Ltac prim H :=
  cbv [print ret raise get get_self datetime_now modify_self remove_auth_code_txt] in H;
  first [discriminate H | (injection H; clear H; intros; subst)].

(** Case analysis on what [H] branches on. *)
Ltac case_in H :=
  cbv beta in H;
  match type of H with
  | context [match ?d with _ => _ end] => destruct d eqn:?
  | context [if ?d then _ else _] => destruct d eqn:?
  end.

Lemma _do_oauth_flow_true (env : Env) (w w' : World) (out : list Msg) :
  _do_oauth_flow env w = (Ok true, w', out) ->
  just_granted env w w' /\ In TokensSaved out.
Proof.
  intros H. unfold _do_oauth_flow in H.
  inv_bind H H1 H2. prim H1.
  apply PyFacts.try_ok_inv in H2.
  destruct H2 as [Hbody | (e & w1 & o1 & o2 & _ & Hhandler & _)].
  2:{ inv_bind Hhandler H1 H2. prim H2. }
  inv_bind Hbody H1 H2. prim H1.
  case_in H2.
  2:{ inv_bind H2 H1 H3. prim H3. }
  inv_bind H2 H1 H3. prim H1.
  case_in H3.
  { inv_bind H3 H1 H2. prim H2. }
  inv_bind H3 H1 H2. prim H1.
  inv_bind H2 Hcode H3.
  inv_bind H3 H1 H2. prim H1.
  inv_bind H2 H1 H3. prim H1.
  apply _exchange_code_for_tokens_true in H3. destruct H3 as (Hgranted & Hsaved).
  split; [|in_output].
  eapply just_granted_same_clock; [|exact Hgranted].
  case_in Hcode.
  - inv_bind Hcode H1 H2. prim H1. prim H2. reflexivity.
  - prim Hcode. reflexivity.
Qed.

(** *** The clock stands still during a call *)

Lemma keeps_clock_bind {A B} (m : M A) (k : A -> M B) :
  keeps_clock m -> (forall a, keeps_clock (k a)) -> keeps_clock (bind m k).
Proof.
  intros Hm Hk w. specialize (Hm w). unfold bind, world in *.
  destruct (m w) as [[[a|e] w1] o1]; cbn [fst snd] in *; [|exact Hm].
  specialize (Hk a w1). unfold world in Hk.
  destruct (k a w1) as [[r w2] o2]; cbn [fst snd] in *. congruence.
Qed.

Lemma keeps_clock_try {A} (m : M A) (h : exn -> M A) :
  keeps_clock m -> (forall e, keeps_clock (h e)) -> keeps_clock (try_except m h).
Proof.
  intros Hm Hh w. specialize (Hm w). unfold try_except, world in *.
  destruct (m w) as [[[a|e] w1] o1]; cbn [fst snd] in *; [exact Hm|].
  specialize (Hh e w1). unfold world in Hh.
  destruct (h e w1) as [[r w2] o2]; cbn [fst snd] in *. congruence.
Qed.

Lemma keeps_clock_prim {A} (m : M A) :
  (forall w, clock (world (m w)) = clock w) -> keeps_clock m.
Proof. intros H. exact H. Qed.

(** [known] closes the goals about routines whose lemma is at hand. *)
Ltac clock_with known :=
  repeat first
    [ known
    | apply keeps_clock_bind; [|intros ?]
    | apply keeps_clock_try; [|intros ?]
    | match goal with
      | |- keeps_clock (if ?b then _ else _) => destruct b
      | |- keeps_clock (match ?x with _ => _ end) => destruct x
      | |- keeps_clock (let '(_, _) := ?x in _) => destruct x
      end
    | (apply keeps_clock_prim; intros ?;
       unfold print, ret, raise, get, get_self, datetime_now, modify_self,
         remove_auth_code_txt, write_token_file, requests_post, response_json;
       repeat match goal with
              | |- context [match ?x with _ => _ end] => destruct x
              | |- context [if ?x then _ else _] => destruct x
              end;
       reflexivity) ].

Ltac clock := clock_with fail.

Lemma _save_tokens_keeps_clock (token_response : PostBody) :
  keeps_clock (_save_tokens token_response).
Proof. unfold _save_tokens. clock. Qed.

Lemma _load_tokens_keeps_clock : keeps_clock _load_tokens.
Proof. unfold _load_tokens. clock. Qed.

Lemma _is_token_valid_keeps_clock : keeps_clock _is_token_valid.
Proof. unfold _is_token_valid. clock. Qed.

Lemma _refresh_access_token_keeps_clock (env : Env) :
  keeps_clock (_refresh_access_token env).
Proof.
  unfold _refresh_access_token.
  clock_with ltac:(apply _save_tokens_keeps_clock).
Qed.

Lemma keeps_clock_run {A} (m : M A) (w w' : World) (r : res A) (out : list Msg) :
  keeps_clock m -> m w = (r, w', out) -> clock w' = clock w.
Proof. intros Hm Hrun. specialize (Hm w). rewrite Hrun in Hm. exact Hm. Qed.

Lemma just_granted_fresh (env : Env) (w w' : World) :
  just_granted env w w' ->
  exists history post status text r lifetime,
    token_endpoint env history post = PostAnswer status text (Dict r) /\
    granted_lifetime r = Some lifetime /\
    token_expires (self w') = Some (clock w' + timedelta_seconds lifetime) /\
    (session_fresh w' <-> 300 < lifetime).
Proof.
  intros (history & post & status & text & r & lifetime & Hpost & Hlife & Hexp & Hclock).
  exists history, post, status, text, r, lifetime.
  rewrite Hclock. repeat split; try assumption.
  - intros (e & He & Hlt). rewrite Hexp in He. injection He as <-.
    unfold SKEW, timedelta_minutes, timedelta_seconds in Hlt. lia.
  - intros Hlt. exists (clock w + timedelta_seconds lifetime). split; [exact Hexp|].
    unfold SKEW, timedelta_minutes, timedelta_seconds. lia.
Qed.

(** C4, as stated, fails: a refresh that is granted a token living one
    minute makes [authenticate] return [True] with a session that expires
    within the five-minute skew. *)
Lemma authenticate_returns_short_lived_session :
  let run := authenticate (env_granting 60) (world_with_stored_token 0 1000000000) in
  result run = Ok true /\
  output run = [Authenticating; RefreshingToken; TokensSaved] /\
  clock (world run) = 1000000000 /\
  token_expires (self (world run)) = Some 1060000000 /\
  ~ session_fresh (world run).
Proof.
  cbv zeta. repeat split; try reflexivity.
  intros (expires_at & Hexp & Hlt).
  vm_compute in Hexp. injection Hexp as <-.
  vm_compute in Hlt. discriminate Hlt.
Qed.

(** C4, amended: when [authenticate] returns [True] through the
    existing-token path, the session satisfies [now < expires_at - 5 min].
    Through refresh or interactive authorization the session was just
    saved from an answer of the token endpoint, with
    [expires_at = now + expires_in] (3600 s when the answer names none) and
    no validity check: it satisfies [now < expires_at - 5 min] exactly when
    the lifetime granted exceeds 300 s. *)
Theorem authenticate_session_expiry (env : Env) (w w' : World) (out : list Msg) :
  authenticate env w = (Ok true, w', out) ->
  (In UsingExistingToken out /\ session_fresh w') \/
  (In TokensSaved out /\
   exists history post status text r lifetime,
     token_endpoint env history post = PostAnswer status text (Dict r) /\
     granted_lifetime r = Some lifetime /\
     token_expires (self w') = Some (clock w' + timedelta_seconds lifetime) /\
     (session_fresh w' <-> 300 < lifetime)).
Proof.
  intros H.
  assert (Hgoal : (In UsingExistingToken out /\ session_fresh w') \/
                  (In TokensSaved out /\ just_granted env w w')).
  2:{ destruct Hgoal as [Hold | [Hsaved Hnew]]; [left; exact Hold|].
      right. split; [exact Hsaved | apply (just_granted_fresh env w w' Hnew)]. }
  unfold authenticate in H.
  inv_bind H H1 H2. prim H1.
  inv_bind H2 H1 H3. prim H1.
  case_in H3; [prim H3|].
  inv_bind H3 Hload H4.
  pose proof (keeps_clock_run _ _ _ _ _ _load_tokens_keeps_clock Hload) as Hclock1.
  inv_bind H4 Hdone H5.
  case_in H5.
  - (* returned from inside the [if self._load_tokens():] block *)
    prim H5.
    case_in Hdone; [|prim Hdone].
    inv_bind Hdone Hvalid H6.
    match type of Hvalid with
    | _is_token_valid ?w0 = _ =>
        destruct (_is_token_valid_run w0) as (valid & Hrun & Hfresh);
        rewrite Hrun in Hvalid; injection Hvalid as <- <- <-
    end.
    case_in H6.
    + inv_bind H6 H1 H2. prim H1. prim H2.
      left. split; [in_output | apply Hfresh; reflexivity].
    + inv_bind H6 H1 H2. prim H1.
      case_in H2; [|prim H2].
      inv_bind H2 H1 H3. prim H1.
      inv_bind H3 Hrefresh H4. prim H4.
      apply _refresh_access_token_true in Hrefresh.
      destruct Hrefresh as (Hgranted & Hsaved).
      right. split; [in_output|].
      eapply just_granted_same_clock; [|exact Hgranted]. exact Hclock1.
  - (* the final [return self._do_oauth_flow()] *)
    apply _do_oauth_flow_true in H5. destruct H5 as (Hgranted & Hsaved).
    right. split; [in_output|].
    eapply just_granted_same_clock; [|exact Hgranted].
    rewrite <- Hclock1.
    refine (keeps_clock_run _ _ _ _ _ _ Hdone).
    clock_with ltac:(first [ apply _is_token_valid_keeps_clock
                           | apply _refresh_access_token_keeps_clock ]).
Qed.

(** The existing-token path: a stored token that has an hour left. *)
Lemma authenticate_session_expiry_witness :
  let w := world_with_stored_token 3600000000 0 in
  let run := authenticate (env_granting 3600) w in
  (In UsingExistingToken (output run) /\ session_fresh (world run)) \/
  (In TokensSaved (output run) /\
   exists history post status text r lifetime,
     token_endpoint (env_granting 3600) history post = PostAnswer status text (Dict r) /\
     granted_lifetime r = Some lifetime /\
     token_expires (self (world run))
     = Some (clock (world run) + timedelta_seconds lifetime) /\
     (session_fresh (world run) <-> 300 < lifetime)).
Proof.
  cbv zeta.
  apply (authenticate_session_expiry (env_granting 3600)
           (world_with_stored_token 3600000000 0)).
  reflexivity.
Defined.

End AuthFacts.

(* ================================================================== *)
(** * Further properties *)

(** ** The request client *)

Module ClientFacts.
Import Py Http Sync.

Lemma lookup_app (k : string) (d1 d2 : Headers) :
  Dict.lookup k (d1 ++ d2)
  = match Dict.lookup k d1 with
    | Some v => Some v
    | None => Dict.lookup k d2
    end.
Proof.
  unfold Dict.lookup. induction d1 as [|[k1 v1] d1 IH]; simpl; [reflexivity|].
  destruct (String.eqb k1 k); [reflexivity | exact IH].
Qed.

(** Looking up after [d[k'] = v]. *)
Lemma lookup_dict_set (k k' : string) (v : option string) (d : Headers) :
  Dict.lookup k (dict_set k' v d)
  = if String.eqb k' k then Some v else Dict.lookup k d.
Proof.
  unfold Dict.lookup. induction d as [|[k1 v1] d IH]; simpl.
  - destruct (String.eqb k' k); reflexivity.
  - destruct (String.eqb_spec k1 k') as [->|Hne]; simpl.
    + destruct (String.eqb k' k); reflexivity.
    + destruct (String.eqb_spec k1 k) as [->|Hne1].
      * destruct (String.eqb_spec k' k) as [->|_]; [congruence | reflexivity].
      * exact IH.
Qed.

(** Looking up after [d.update(other)]: the entry of [other] wins. *)
Lemma lookup_dict_update (k : string) (other d : Headers) :
  Dict.lookup k (dict_update d other)
  = match Dict.lookup k (rev other) with
    | Some v => Some v
    | None => Dict.lookup k d
    end.
Proof.
  unfold dict_update. revert d.
  induction other as [|[k1 v1] other IH]; intros d; simpl.
  - reflexivity.
  - rewrite IH, lookup_app, lookup_dict_set.
    destruct (Dict.lookup k (rev other)); [reflexivity|].
    unfold Dict.lookup. simpl.
    destruct (String.eqb k1 k); reflexivity.
Qed.

Section Client.
Variable env : Env.
Variable auth : AdobeAuth.

Lemma make_authenticated_request_eq
    (method endpoint : string) (headers : Headers)
    (json_data : option JsonBody) (data : option bytes) :
  PyStr.truthy (access_token auth) = true ->
  make_authenticated_request env auth method endpoint headers json_data data
  = try_except
      (bind (requests_request env
               (Dict.client_request auth method endpoint headers json_data data))
            (fun response =>
               bind (if raises_for_status (status_code response)
                     then raise (HTTPError (status_code response) (text response))
                     else ret tt)
                    (fun _ =>
                       if PyStr.contains "application/json"
                            (dict_get (content_type response) EmptyString)
                       then ret {| status_code := status_code response;
                                   content_type := content_type response;
                                   text := Strip._strip_adobe_prefix (text response) |}
                       else ret response)))
      (fun e =>
         if is_RequestException e
         then bind (print (RequestFailed method (api_base auth +++ endpoint) e))
                   (fun _ => raise e)
         else raise e).
Proof.
  intros Htoken. unfold make_authenticated_request, get_headers, Dict.client_request.
  rewrite Htoken. cbn [negb dict_get].
  destruct headers as [|h headers']; reflexivity.
Qed.

(** X1: with a token, [make_authenticated_request] hands exactly one
    request to the transport, whatever comes back: it goes to
    [api_base + endpoint] with the method and body it was given, and for
    every header name the value is the caller's when the caller gave one
    (the last one, should a name occur twice) and the session's otherwise. *)
Theorem make_authenticated_request_sends_one_merged
    (method endpoint : string) (headers : Headers)
    (json_data : option JsonBody) (data : option bytes) (w : World) :
  PyStr.truthy (access_token auth) = true ->
  let run := make_authenticated_request env auth method endpoint headers
               json_data data w in
  exists req,
    net (world run) = net w ++ [CallAdobe req] /\
    minted (world run) = minted w /\
    Http.method req = method /\
    url req = api_base auth +++ endpoint /\
    json req = json_data /\
    Http.data req = data /\
    forall k,
      Dict.lookup k (Http.headers req)
      = match Dict.lookup k (rev headers) with
        | Some v => Some v
        | None => Dict.lookup k (Dict.session_headers auth)
        end.
Proof.
  intros Htoken. cbv zeta.
  exists (Dict.client_request auth method endpoint headers json_data data).
  rewrite (make_authenticated_request_eq method endpoint headers json_data data Htoken).
  split; [|split].
  - unfold try_except, bind, requests_request, raise, ret, print, world.
    destruct (adobe env (net w) _) as [r|]; [|reflexivity].
    destruct (raises_for_status (status_code r)); [reflexivity|].
    destruct (PyStr.contains _ _); reflexivity.
  - unfold try_except, bind, requests_request, raise, ret, print, world.
    destruct (adobe env (net w) _) as [r|]; [|reflexivity].
    destruct (raises_for_status (status_code r)); [reflexivity|].
    destruct (PyStr.contains _ _); reflexivity.
  - repeat split; try reflexivity.
    intros k. apply lookup_dict_update.
Qed.


End Client.

Lemma make_authenticated_request_sends_one_merged_witness :
  let run := make_authenticated_request (env_by_phase 201 200 200) example_auth "PUT"
               "/v2/catalogs/c/assets/a"
               [("Content-Type", Some "image/jpeg")] None (Some [x01%byte])
               initial_world in
  exists req,
    net (world run) = [] ++ [CallAdobe req] /\
    minted (world run) = 0 /\
    Http.method req = "PUT" /\
    url req = "https://lr.adobe.io" +++ "/v2/catalogs/c/assets/a" /\
    json req = None /\
    Http.data req = Some [x01%byte] /\
    forall k,
      Dict.lookup k (Http.headers req)
      = match Dict.lookup k (rev [("Content-Type", Some "image/jpeg")]) with
        | Some v => Some v
        | None => Dict.lookup k (Dict.session_headers example_auth)
        end.
Proof.
  apply (make_authenticated_request_sends_one_merged (env_by_phase 201 200 200)
           example_auth "PUT" "/v2/catalogs/c/assets/a"
           [("Content-Type", Some "image/jpeg")] None (Some [x01%byte]) initial_world).
  reflexivity.
Defined.

End ClientFacts.

(** ** What one item costs *)

Module EffortFacts.
Import Py Http Sync Calls.

Section Budget.
Variable P : Call -> Prop.









End Budget.



Section Upload.
Variable env : Env.
Variable auth : AdobeAuth.





Ltac tidy :=
  cbv beta iota zeta; cbn [negb status_code net minted clock fst snd].

Ltac fails := intros Htrue; discriminate Htrue.

(** X5: [_upload_file_to_lightroom] returns [True] only when there was
    content to send, the session had a token and account info, the create
    and the upload request were each answered with 200 or 201, and the
    associate request was answered with a status outside 400..599; the
    three requests, in this order, are then all it has sent. *)
Theorem upload_success_means_three_answers
    (catalogue_id : string) (file_content : option bytes)
    (file_name album_id mime_type : string) (w : World) :
  let run := _upload_file_to_lightroom env auth catalogue_id file_content
               file_name album_id mime_type w in
  let asset_id := next_asset_id env w in
  let create := create_request env auth w catalogue_id file_name mime_type in
  let upload := upload_request auth catalogue_id asset_id mime_type file_content in
  let associate := associate_request auth catalogue_id album_id asset_id in
  result run = Ok true ->
  bytes_truthy file_content = true /\
  PyStr.truthy (access_token auth) = true /\
  account_info auth <> None /\
  exists r1 r2 r3,
    adobe env (net w) create = Answer r1 /\
    created_or_ok (status_code r1) = true /\
    adobe env (net w ++ [CallAdobe create]) upload = Answer r2 /\
    created_or_ok (status_code r2) = true /\
    adobe env ((net w ++ [CallAdobe create]) ++ [CallAdobe upload]) associate
    = Answer r3 /\
    raises_for_status (status_code r3) = false /\
    net (world run)
    = ((net w ++ [CallAdobe create]) ++ [CallAdobe upload]) ++ [CallAdobe associate].
Proof.
  cbv zeta. unfold create_request, upload_request, associate_request, next_asset_id.
  unfold _upload_file_to_lightroom.
  destruct (bytes_truthy file_content) eqn:Hcontent; cbn [negb]; [|fails].
  unfold make_authenticated_request, get_headers.
  destruct (PyStr.truthy (access_token auth)) eqn:Htoken; cbn [negb].
  2:{ unfold bind, try_except, print, ret, raise, uuid_uuid4, datetime_now, result.
      destruct (account_info auth); fails. }
  destruct (account_info auth) as [account|] eqn:Eaccount; [|fails].
  unfold bind, try_except, print, ret, raise, uuid_uuid4, datetime_now,
    requests_request, log_call, result, world.
  tidy. cbn [dict_get].
  (* create *)
  match goal with
  | |- context [adobe env ?h ?req] => destruct (adobe env h req) as [r1|] eqn:E1
  end; tidy; [|fails].
  destruct (raises_for_status (status_code r1)) eqn:Epass1; tidy; [fails|].
  assert (Hok1 : created_or_ok (status_code r1) = true \/
                 created_or_ok (status_code r1) = false)
    by (destruct (created_or_ok (status_code r1)); auto).
  destruct Hok1 as [Hok1|Hok1].
  2:{ destruct (PyStr.contains "application/json" (dict_get (content_type r1) EmptyString));
        tidy; rewrite Hok1; tidy; fails. }
  destruct (PyStr.contains "application/json" (dict_get (content_type r1) EmptyString));
    tidy; rewrite Hok1; tidy;
    (* upload *)
    match goal with
    | |- context [adobe env ?h ?req] => destruct (adobe env h req) as [r2|] eqn:E2
    end; tidy; try fails;
    (destruct (raises_for_status (status_code r2)) eqn:Epass2; tidy; [fails|]);
    (destruct (created_or_ok (status_code r2)) eqn:Hok2;
     [|destruct (PyStr.contains "application/json" (dict_get (content_type r2) EmptyString));
       tidy; rewrite Hok2; tidy; fails]);
    destruct (PyStr.contains "application/json" (dict_get (content_type r2) EmptyString));
    tidy; rewrite Hok2; tidy;
    (* associate *)
    match goal with
    | |- context [adobe env ?h ?req] => destruct (adobe env h req) as [r3|] eqn:E3
    end; tidy; try fails;
    (destruct (raises_for_status (status_code r3)) eqn:Epass3; tidy; [fails|]);
    intros _;
    (split; [reflexivity|]); (split; [reflexivity|]); (split; [discriminate|]);
    exists r1, r2, r3;
    (split; [exact E1|]); (split; [exact Hok1|]);
    (split; [exact E2|]); (split; [exact Hok2|]);
    (split; [exact E3|]); (split; [exact Epass3|]);
    destruct (PyStr.contains "application/json" (dict_get (content_type r3) EmptyString));
    tidy; destruct (created_or_ok (status_code r3)); reflexivity.
Qed.



End Upload.


Lemma upload_success_means_three_answers_witness :
  let env := env_by_phase 201 200 204 in
  let w := initial_world in
  let run := _upload_file_to_lightroom env example_auth "catalog" (Some [x01%byte])
               "a.jpg" "album" "image/jpeg" w in
  let asset_id := next_asset_id env w in
  let create := create_request env example_auth w "catalog" "a.jpg" "image/jpeg" in
  let upload := upload_request example_auth "catalog" asset_id "image/jpeg"
                  (Some [x01%byte]) in
  let associate := associate_request example_auth "catalog" "album" asset_id in
  bytes_truthy (Some [x01%byte]) = true /\
  PyStr.truthy (access_token example_auth) = true /\
  account_info example_auth <> None /\
  exists r1 r2 r3,
    adobe env (net w) create = Answer r1 /\
    created_or_ok (status_code r1) = true /\
    adobe env (net w ++ [CallAdobe create]) upload = Answer r2 /\
    created_or_ok (status_code r2) = true /\
    adobe env ((net w ++ [CallAdobe create]) ++ [CallAdobe upload]) associate
    = Answer r3 /\
    raises_for_status (status_code r3) = false /\
    net (world run)
    = ((net w ++ [CallAdobe create]) ++ [CallAdobe upload]) ++ [CallAdobe associate].
Proof.
  apply (upload_success_means_three_answers (env_by_phase 201 200 204) example_auth
           "catalog" (Some [x01%byte]) "a.jpg" "album" "image/jpeg" initial_world).
  reflexivity.
Defined.


End EffortFacts.

(** ** What a whole run does *)

Module RunFacts.
Import Py Http Sync Calls.






Section Run.
Variable env : Env.
Variable auth : AdobeAuth.
Variables album_id album_name catalogue_id : string.







End Run.


(** ** The Drive listing *)



End RunFacts.

(** ** Paths of folders that do hang from the root *)

Module AncestryFacts.
Import Py DrivePath Ancestry.

Section Climb.
Variable env : Env.

Lemma climbs_not_root (w : World) (folder_id folder_name : string)
    (up : list (string * string)) :
  climbs env w ((folder_id, folder_name) :: up) -> String.eqb folder_id "root" = false.
Proof. intros (Hid & _). apply String.eqb_neq. exact Hid. Qed.

(** X10: for a folder that hangs from the root through a chain of first
    parents, [get_folder_path] returns ["📁 My Drive / ... / parent / name"]
    after looking up each folder of the chain once, from the folder upwards,
    provided the interpreter has a frame left for each parent; ['root']
    itself is never looked up. *)
Theorem get_folder_path_follows_first_parents
    (chain : list (string * string)) (depth : nat) (w : World) :
  climbs env w chain ->
  List.length chain <= S depth ->
  get_folder_path env depth (fst (hd (EmptyString, EmptyString) chain)) w
  = (Ok (path_above chain), w ++ map fst chain, []).
Proof.
  revert depth w.
  induction chain as [|[folder_id folder_name] up IH]; intros depth w Hclimbs Hdepth;
    [contradiction|].
  pose proof (climbs_not_root _ _ _ _ Hclimbs) as Hid.
  cbn [climbs] in Hclimbs. destruct Hclimbs as (_ & Hclimbs).
  cbn [hd fst map path_above].
  destruct (files_get env w folder_id) as [folder|] eqn:Hget; [|contradiction].
  destruct Hclimbs as (Hname & Hup).
  destruct up as [|[parent_id parent_name] up'].
  - (* the folder hangs from the root *)
    destruct depth; simpl; unfold try_except, bind, files_get_execute, ret;
      rewrite Hid, Hget; simpl;
      destruct (dict_get (parents folder) []) as [|p0 ps]; simpl;
      rewrite ?Hname; try reflexivity;
      subst p0; simpl; reflexivity.
  - destruct Hup as ((rest & Hparents) & Hup).
    pose proof (climbs_not_root _ _ _ _ Hup) as Hparent.
    destruct depth as [|depth]; [simpl in Hdepth; lia|].
    assert (Hdepth' : List.length ((parent_id, parent_name) :: up') <= S depth).
    { simpl in *. lia. }
    pose proof (IH depth (w ++ [folder_id]) Hup Hdepth') as Hsub.
    cbn [hd fst] in Hsub.
    change (get_folder_path env (S depth) folder_id w)
      with (try_except
              (if String.eqb folder_id "root" then ret "📁 My Drive"
               else
                 bind (files_get_execute env folder_id)
                   (fun folder =>
                      match dict_get (parents folder) [] with
                      | p0 :: _ =>
                          if negb (String.eqb p0 "root") then
                            bind (get_folder_path env depth p0)
                              (fun parent_path =>
                                 ret (parent_path +++ " / "
                                      +++ dict_get (name folder) "Unknown"))
                          else ret ("📁 My Drive / " +++ dict_get (name folder) "Unknown")
                      | [] => ret ("📁 My Drive / " +++ dict_get (name folder) "Unknown")
                      end))
              (fun e => ret ("📁 Unknown Path (" +++ folder_id +++ ")")) w).
    unfold try_except, bind, files_get_execute, ret.
    rewrite Hid, Hget, Hparents, Hparent. cbn [negb].
    rewrite Hsub, Hname. cbn [map fst]. rewrite <- app_assoc. reflexivity.
Qed.


End Climb.

Lemma get_folder_path_follows_first_parents_witness :
  get_folder_path three_levels 2 "f3" []
  = (Ok "📁 My Drive / photos / 2024 / summer", ["f3"; "f2"; "f1"], []).
Proof.
  apply (get_folder_path_follows_first_parents three_levels
           [("f3", "summer"); ("f2", "2024"); ("f1", "photos")] 2 []).
  - simpl. repeat split; try discriminate; eexists; reflexivity.
  - simpl. lia.
Defined.


End AncestryFacts.

(** ** Album records and pages *)

Module OutcomeFacts.
Import Py Outcome.

Section Rules.
Context {W Msg : Type}.
Let M : Type -> Type := Py.M W Msg.

Lemma post_ret {A} (a : A) (Q : A -> Prop) : Q a -> post (ret a : M A) Q.
Proof. intros H w a' w' out Hrun. injection Hrun as <- _ _. exact H. Qed.

Lemma post_raise {A} (e : exn) (Q : A -> Prop) : post (raise e : M A) Q.
Proof. intros w a w' out Hrun. discriminate Hrun. Qed.

Lemma post_bind {A B} (m : M A) (k : A -> M B) (P : A -> Prop) (Q : B -> Prop) :
  post m P -> (forall a, P a -> post (k a) Q) -> post (bind m k) Q.
Proof.
  intros Hm Hk w b w' out Hrun.
  destruct (PyFacts.bind_ok_inv _ _ _ _ _ _ Hrun) as (a & w1 & o1 & o2 & H1 & H2 & _).
  exact (Hk a (Hm _ _ _ _ H1) _ _ _ _ H2).
Qed.

Lemma post_any {A} (m : M A) : post m (fun _ => True).
Proof. intros w a w' out _. exact I. Qed.

Lemma post_try {A} (m : M A) (h : exn -> M A) (Q : A -> Prop) :
  post m Q -> (forall e, post (h e) Q) -> post (try_except m h) Q.
Proof.
  intros Hm Hh w a w' out Hrun.
  destruct (PyFacts.try_ok_inv _ _ _ _ _ _ Hrun)
    as [H | (e & w1 & o1 & o2 & _ & H & _)].
  - exact (Hm _ _ _ _ H).
  - exact (Hh e _ _ _ _ H).
Qed.




Lemma bind_step {A B} (m : M A) (k : A -> M B) (w w1 w2 : W) (a : A)
    (r : res B) (o1 o2 : list Msg) :
  m w = (Ok a, w1, o1) -> k a w1 = (r, w2, o2) -> bind m k w = (r, w2, o1 ++ o2).
Proof. intros Hm Hk. unfold bind. rewrite Hm, Hk. reflexivity. Qed.


End Rules.

End OutcomeFacts.

Module AlbumRecordFacts.
Import Py Albums Outcome AlbumRecord OutcomeFacts.

(** X12: on a JSON object [_extract_album_info] never raises and reads the
    five fields as [dict.get] would: [id], [created] and [updated] from the
    object, [name] and [subtype] from its ['payload'] when that is an
    object, with [None] for what is missing, and ['Unnamed Album'] for a
    missing name. *)
Theorem _extract_album_info_reads_fields (entries : list (string * Json)) (w : World) :
  _extract_album_info (JObj entries) w
  = (Ok {| id := field_or "id" entries JNull;
           name := field_or "name" (payload_fields entries) (JStr "Unnamed Album");
           created := field_or "created" entries JNull;
           updated := field_or "updated" entries JNull;
           subtype := field_or "subtype" (payload_fields entries) JNull |},
     w, []).
Proof.
  unfold _extract_album_info, field_or, payload_fields, py_in, py_getitem, bind, ret, raise.
  destruct (lookup "id" entries);
    destruct (lookup "created" entries);
    destruct (lookup "updated" entries);
    (destruct (lookup "payload" entries) as [[| | | | |payload]|]; cbn;
     [..|destruct (lookup "name" payload); destruct (lookup "subtype" payload); cbn|]);
    reflexivity.
Qed.



Lemma collect_albums_have_ids (items : list Json) :
  post (collect_albums items) (Forall (fun album => truthy (id album) = true)).
Proof.
  induction items as [|item items IH]; cbn [collect_albums].
  - apply post_ret. constructor.
  - apply (post_bind _ _ (fun _ => True)); [apply post_any | intros album _].
    apply (post_bind _ _ _ _ IH). intros albums Hall.
    apply post_ret. destruct (truthy (id album)) eqn:Hid; [constructor|]; assumption.
Qed.

Section Page.
Variable env : Env.
Variable self : Selector.

Lemma page_empty : page self ([], None).
Proof. split; [constructor | left; reflexivity]. Qed.

Lemma list_albums_page (limit : option Z) (offset : Z) (next_link : option string) :
  post (list_albums env self limit offset next_link) (page self).
Proof.
  unfold list_albums.
  destruct (negb (PyStr.truthy (catalog_id self))).
  { apply (post_bind _ _ (fun _ => True)); [apply post_any | intros _ _].
    apply post_ret, page_empty. }
  apply post_try;
    [|intros e; apply (post_bind _ _ (fun _ => True)); [apply post_any | intros _ _];
      apply post_ret, page_empty].
  apply (post_bind _ _ (fun _ => True)); [apply post_any | intros _ _].
  apply (post_bind _ _ (fun _ => True)); [apply post_any | intros response _].
  apply (post_bind _ _ (fun _ => True)); [apply post_any | intros _ _].
  destruct (Http.status_code response =? 200)%Z.
  - apply (post_bind _ _ (fun _ => True)); [apply post_any | intros data _].
    apply (post_bind _ _ (fun _ => True)); [apply post_any | intros has_links _].
    apply (post_bind _ _ (fun _ => True)); [apply post_any | intros has_next _].
    apply (post_bind _ _ (fun next => next = None \/ exists href, next = Some (next_page self href))).
    { destruct has_next; [|apply post_ret; left; reflexivity].
      apply (post_bind _ _ (fun _ => True)); [apply post_any | intros links _].
      apply (post_bind _ _ (fun _ => True)); [apply post_any | intros next _].
      apply (post_bind _ _ (fun _ => True)); [apply post_any | intros href _].
      apply (post_bind _ _ (fun _ => True)); [apply post_any | intros _ _].
      apply post_ret.
      destruct (truthy href); [right; eexists; reflexivity | left; reflexivity]. }
    intros next_page_link Hnext.
    apply (post_bind _ _ (fun _ => True)); [apply post_any | intros has_resources _].
    apply (post_bind _ _ (fun _ => True)); [apply post_any | intros resources _].
    apply (post_bind _ _ (Forall (fun album => truthy (id album) = true))).
    { destruct resources as [items|].
      - apply (post_bind _ _ (fun _ => True)); [apply post_any | intros _ _].
        apply collect_albums_have_ids.
      - apply (post_bind _ _ (fun _ => True)); [apply post_any | intros _ _].
        apply post_ret. constructor. }
    intros albums Hall. apply post_ret. split; assumption.
  - destruct (Http.status_code response =? 404)%Z;
      [|destruct (Http.status_code response =? 401)%Z;
        [|destruct (Http.status_code response =? 403)%Z]];
      (apply (post_bind _ _ (fun _ => True)); [apply post_any | intros _ _]);
      apply post_ret, page_empty.
Qed.



End Page.


End AlbumRecordFacts.

(** ** The token file and the instance *)

Module SessionFacts.
Import Py Auth Outcome Session.
Local Open Scope Z_scope.

(** What a save that succeeds leaves behind. *)
Lemma _save_tokens_saved (token_response : PostBody) (w w' : World) (out : list Msg) :
  _save_tokens token_response w = (Ok true, w', out) ->
  exists r lifetime,
    token_response = Dict r /\
    granted_lifetime r = Some lifetime /\
    disk_writable w = true /\
    out = [TokensSaved] /\
    w' = {| self := holding (saved_as r lifetime (clock w) (refresh_token (self w))) (self w);
            token_file := Stored (saved_as r lifetime (clock w) (refresh_token (self w)));
            disk_writable := disk_writable w;
            auth_code_txt := auth_code_txt w;
            posts := posts w;
            clock := clock w |}.
Proof.
  intros H.
  unfold _save_tokens, try_except, bind, ret, raise, print, get_self, datetime_now,
    write_token_file, modify_self in H.
  destruct token_response as [| |r]; try discriminate H.
  unfold granted_lifetime.
  destruct (field_get (tr_expires_in r) (Some 3600)) as [lifetime|] eqn:Elife;
    try discriminate H.
  exists r, lifetime.
  destruct (tr_access_token r) eqn:Eaccess; try discriminate H;
    destruct (disk_writable w) eqn:Edisk; try discriminate H;
    injection H as <- <-;
    unfold saved_as, holding, set_self, set_tokens, set_token_expires;
    rewrite Eaccess; repeat split; first [exact Elife | reflexivity].
Qed.


(** X15: what [_save_tokens] has written, [_load_tokens] reads back: a
    load right after a save that succeeded leaves the instance and the
    file as they are, and returns the truth value of the access token that
    was saved ([False] for an answer whose access token is [null], although
    the save returned [True]). *)
Theorem save_then_load_restores_session
    (token_response : PostBody) (w w' : World) (out : list Msg) :
  _save_tokens token_response w = (Ok true, w', out) ->
  _load_tokens w' = (Ok (PyStr.truthy (access_token (self w'))), w', []).
Proof.
  intros Hsave.
  destruct (_save_tokens_saved _ _ _ _ Hsave) as (r & lifetime & _ & _ & _ & _ & ->).
  reflexivity.
Qed.

Lemma save_then_load_restores_session_witness :
  let token_response :=
    Dict {| tr_access_token := Val "fresh-token"%string;
            tr_refresh_token := Absent;
            tr_expires_in := Val 3600;
            tr_token_type := Absent |} in
  let w' := world (_save_tokens token_response world_holding_expired_token) in
  _load_tokens w' = (Ok (PyStr.truthy (access_token (self w'))), w', []).
Proof.
  apply (save_then_load_restores_session
           (Dict {| tr_access_token := Val "fresh-token"%string;
                    tr_refresh_token := Absent;
                    tr_expires_in := Val 3600;
                    tr_token_type := Absent |})
           world_holding_expired_token
           (world (_save_tokens
                     (Dict {| tr_access_token := Val "fresh-token"%string;
                              tr_refresh_token := Absent;
                              tr_expires_in := Val 3600;
                              tr_token_type := Absent |})
                     world_holding_expired_token))
           [TokensSaved]).
  reflexivity.
Defined.


(** *** Computations that only raise what their caller catches *)




Lemma never_raises_prim {A} (m : M A) (f : World -> A * World * list Msg) :
  (forall w, m w = (Ok (fst (fst (f w))), snd (fst (f w)), snd (f w))) -> never_raises m.
Proof. intros H w. rewrite H. do 3 eexists. reflexivity. Qed.

(** [known] closes the goals about routines whose lemma is at hand. *)
Ltac total_with known :=
  repeat first
    [ known
    | apply PyFacts.never_raises_ret
    | apply PyFacts.never_raises_print
    | apply PyFacts.never_raises_bind; [|intros ?]
    | apply PyFacts.never_raises_try; intros ?
    | match goal with
      | |- never_raises (if ?b then _ else _) => destruct b
      | |- never_raises (match ?x with _ => _ end) => destruct x
      | |- never_raises get => intros ?; do 3 eexists; reflexivity
      | |- never_raises get_self => intros ?; do 3 eexists; reflexivity
      | |- never_raises datetime_now => intros ?; do 3 eexists; reflexivity
      | |- never_raises (modify_self _) => intros ?; do 3 eexists; reflexivity
      | |- never_raises remove_auth_code_txt => intros ?; do 3 eexists; reflexivity
      end ].

Ltac total := total_with fail.





Lemma _exchange_code_for_tokens_never_raises (env : Env) (auth_code : string) :
  never_raises (_exchange_code_for_tokens env auth_code).
Proof. unfold _exchange_code_for_tokens. total. Qed.



(** *** Posts to the token endpoint *)

Section Posts.
Variable P : Post -> Prop.





End Posts.









Section Turns.
Variables P Q : Post -> Prop.
Variables n1 n2 : nat.




End Turns.





(** *** The code that is exchanged *)


Lemma before_has_none (c : ascii) (s : string) :
  PyStr.contains (String c EmptyString) (PyStr.before c s) = false.
Proof.
  induction s as [|a s IH]; [reflexivity|].
  cbn [PyStr.before].
  destruct (Ascii.eqb_spec a c) as [->|Hne]; [reflexivity|].
  cbn [PyStr.contains String.prefix]. rewrite IH.
  destruct (ascii_dec c a) as [Heq|_]; [symmetry in Heq; contradiction | reflexivity].
Qed.



(** A pasted query string that starts with ['&'] passes the length check
    and is posted as the empty code. *)
Example _do_oauth_flow_posts_empty_code :
  posts (world (_do_oauth_flow (env_granting 3600) (world_with_code "&state=lightroom")))
  = [CodeGrant (Some "client") (Some "secret") EmptyString
       "http://localhost:8080/callback"].
Proof. reflexivity. Qed.

(** X20: a refresh that succeeds has posted one refresh grant, carrying the
    refresh token the instance held, and was answered with a JSON object
    whose status is outside 400..599.  The refresh token kept afterwards, in
    the instance and in the file alike, is the one the answer names; when
    the answer names none, it is the old one, and when the answer names
    [null], none is left. *)
Theorem _refresh_access_token_keeps_refresh_token
    (env : Env) (w w' : World) (out : list Msg) :
  _refresh_access_token env w = (Ok true, w', out) ->
  let grant := RefreshGrant (client_id (self w)) (client_secret (self w))
                            (refresh_token (self w)) in
  exists status text r d,
    token_endpoint env (posts w) grant = PostAnswer status text (Dict r) /\
    Http.raises_for_status status = false /\
    posts w' = posts w ++ [grant] /\
    token_file w' = Stored d /\
    td_refresh_token d = field_get (tr_refresh_token r) (refresh_token (self w)) /\
    refresh_token (self w') = td_refresh_token d.
Proof.
  intros H. cbv zeta.
  unfold _refresh_access_token, bind at 1, get_self in H.
  destruct (negb (PyStr.truthy (refresh_token (self w)))); [discriminate H|].
  unfold try_except, bind at 1, requests_post in H.
  destruct (token_endpoint env (posts w) _) as [|status text body] eqn:Epost;
    [discriminate H|].
  unfold bind, raise, ret in H.
  destruct (Http.raises_for_status status) eqn:Estatus; [discriminate H|].
  unfold response_json, raise, ret in H.
  destruct body as [| |r]; try discriminate H;
    match type of H with
    | context [_save_tokens ?b ?w0] =>
        destruct (_save_tokens b w0) as [[[saved|e] w2] o2] eqn:Esave
    end; cbn in H;
    try (destruct (is_RequestException e); discriminate H);
    injection H as -> -> <-;
    destruct (_save_tokens_saved _ _ _ _ Esave) as (r' & lifetime & Hd & _ & _ & _ & ->);
    try discriminate Hd.
  injection Hd as <-.
  exists status, text, r. eexists.
  split; [reflexivity|]. split; [exact Estatus|].
  repeat split; reflexivity.
Qed.

Lemma _refresh_access_token_keeps_refresh_token_witness :
  let w := world_holding_expired_token in
  let w' := world (_refresh_access_token (env_granting 3600) w) in
  let grant := RefreshGrant (client_id (self w)) (client_secret (self w))
                            (refresh_token (self w)) in
  exists status text r d,
    token_endpoint (env_granting 3600) (posts w) grant
    = PostAnswer status text (Dict r) /\
    Http.raises_for_status status = false /\
    posts w' = posts w ++ [grant] /\
    token_file w' = Stored d /\
    td_refresh_token d = field_get (tr_refresh_token r) (refresh_token (self w)) /\
    refresh_token (self w') = td_refresh_token d.
Proof.
  apply (_refresh_access_token_keeps_refresh_token (env_granting 3600)
           world_holding_expired_token
           (world (_refresh_access_token (env_granting 3600) world_holding_expired_token))
           (output (_refresh_access_token (env_granting 3600)
                      world_holding_expired_token))).
  reflexivity.
Defined.

End SessionFacts.

(** ** The token manager *)

Module TokenManagerFacts.
Import Py TokenManager.

Lemma lookup_set_entry_same (k : string) (v : Albums.Json)
    (entries : list (string * Albums.Json)) :
  Albums.lookup k (set_entry k v entries) = Some v.
Proof.
  unfold Albums.lookup.
  induction entries as [|[k' v'] rest IH]; cbn [set_entry find fst snd].
  - rewrite String.eqb_refl. reflexivity.
  - destruct (String.eqb k' k) eqn:Hk; cbn [find fst snd].
    + rewrite String.eqb_refl. reflexivity.
    + rewrite Hk. exact IH.
Qed.

Lemma lookup_set_entry_other (k other : string) (v : Albums.Json)
    (entries : list (string * Albums.Json)) :
  other <> k ->
  Albums.lookup other (set_entry k v entries) = Albums.lookup other entries.
Proof.
  intros Hother. unfold Albums.lookup.
  assert (Hk : String.eqb k other = false).
  { apply String.eqb_neq. congruence. }
  induction entries as [|[k' v'] rest IH]; cbn [set_entry find fst snd].
  - rewrite Hk. reflexivity.
  - destruct (String.eqb k' k) eqn:Hk'; cbn [find fst snd].
    + apply String.eqb_eq in Hk'. subst k'. rewrite Hk. reflexivity.
    + destruct (String.eqb k' other); [reflexivity | exact IH].
Qed.

Lemma load_config_run (w : World) :
  exists out,
    load_config w
    = (Ok (if holds_no_object (config_json w)
           then match config_json w with
                | StoredConfig v => v
                | _ => Albums.JObj []
                end
           else Albums.JObj (entries_before (config_json w))),
       w, out).
Proof.
  unfold load_config, bind, get, try_except, ret, raise, print.
  destruct (config_json w) as [| |[]]; cbn; eexists; reflexivity.
Qed.

(** X21: when [config.json] can be written and is missing, unreadable or
    holds an object, [save_config] succeeds and the file then holds the
    entries there were (none for a missing or unreadable file, whose
    content is lost) with that of the service set.  [get_config] reads the
    data back for the service, and answers as before for every other
    service. *)
Theorem save_config_then_get_config
    (service : string) (config_data : Albums.Json) (w : World) :
  config_writable w = true ->
  holds_no_object (config_json w) = false ->
  let saved := save_config service config_data w in
  result saved = Ok tt /\
  config_json (world saved)
  = StoredConfig (Albums.JObj (set_entry service config_data
                                 (entries_before (config_json w)))) /\
  get_config service (world saved) = (Ok config_data, world saved, []) /\
  forall other,
    other <> service ->
    result (get_config other (world saved)) = result (get_config other w).
Proof.
  intros Hwritable Hobject. cbv zeta.
  destruct (load_config_run w) as (out & Hload). rewrite Hobject in Hload.
  assert (Hsaved : save_config service config_data w
                   = (Ok tt,
                      {| google_token_pickle := google_token_pickle w;
                         adobe_token_json := adobe_token_json w;
                         config_json :=
                           StoredConfig
                             (Albums.JObj (set_entry service config_data
                                             (entries_before (config_json w))));
                         config_writable := config_writable w;
                         tokens_dir_writable := tokens_dir_writable w;
                         clock := clock w |},
                      out ++ [SavedConfiguration service])).
  { unfold save_config. rewrite (PyFacts.bind_run _ _ _ _ _ _ Hload).
    unfold py_setitem, write_config, bind, ret, print, result, world, output.
    rewrite Hwritable. cbn [fst snd app]. reflexivity. }
  rewrite Hsaved. unfold result, world. cbn [fst snd].
  split; [reflexivity|]. split; [reflexivity|]. split.
  - unfold get_config, load_config, py_get, bind, get, try_except, ret.
    cbn [config_json fst snd app]. rewrite lookup_set_entry_same. reflexivity.
  - intros other Hother.
    unfold get_config. rewrite (PyFacts.bind_run _ _ _ _ _ _ Hload).
    unfold load_config, py_get, bind, get, try_except, ret, result.
    cbn [config_json fst snd app].
    rewrite (lookup_set_entry_other _ _ _ _ Hother). reflexivity.
Qed.

Lemma save_config_then_get_config_witness :
  let saved := save_config "adobe" (Albums.JStr "album") example_world in
  result saved = Ok tt /\
  config_json (world saved)
  = StoredConfig (Albums.JObj (set_entry "adobe" (Albums.JStr "album")
                                 (entries_before (config_json example_world)))) /\
  get_config "adobe" (world saved) = (Ok (Albums.JStr "album"), world saved, []) /\
  forall other,
    other <> "adobe" ->
    result (get_config other (world saved)) = result (get_config other example_world).
Proof.
  apply (save_config_then_get_config "adobe" (Albums.JStr "album") example_world);
    reflexivity.
Defined.

(** A configuration that is a JSON list cannot be saved over: the
    assignment raises, and the exception leaves [save_config]. *)
Example save_config_over_a_list_raises :
  save_config "adobe" (Albums.JStr "album")
    {| google_token_pickle := false; adobe_token_json := Auth.NoFile;
       config_json := StoredConfig (Albums.JArr []);
       config_writable := true; tokens_dir_writable := true; clock := 0 |}
  = (Raise TypeError,
     {| google_token_pickle := false; adobe_token_json := Auth.NoFile;
        config_json := StoredConfig (Albums.JArr []);
        config_writable := true; tokens_dir_writable := true; clock := 0 |},
     []).
Proof. reflexivity. Qed.

Lemma is_authenticated_google (w : World) :
  is_authenticated "google" w = (Ok (google_token_pickle w), w, []).
Proof. reflexivity. Qed.

Lemma is_authenticated_adobe (w : World) :
  is_authenticated "adobe" w
  = (Ok (adobe_token_valid (adobe_token_json w) (clock w)), w, []).
Proof.
  destruct w as [google adobe config cw tw now].
  unfold is_authenticated, os_path_exists, bind, try_except, get, ret, raise,
    datetime_now, adobe_token_valid.
  cbn [String.eqb Ascii.eqb Bool.eqb adobe_token_json clock fst snd].
  change (String.eqb (tokens_dir +++ "/adobe_token.json") google_token_path) with false.
  change (String.eqb (tokens_dir +++ "/adobe_token.json") adobe_token_path) with true.
  cbv iota.
  destruct adobe as [| |d]; cbn [negb fst snd app]; try reflexivity.
  cbn [adobe_token_json clock]. cbv beta iota.
  destruct (Auth.td_expires_at d); cbn [fst snd app]; cbv beta iota; reflexivity.
Qed.

(** One round of the loop of [clear_tokens]. *)
Lemma clear_google (w : World) :
  tokens_dir_writable w = true ->
  exists out,
    bind (os_path_exists (tokens_dir +++ "/google_token.pickle"))
      (fun found : bool =>
         if found
         then bind (os_remove (tokens_dir +++ "/google_token.pickle"))
                (fun _ => print (Removed (tokens_dir +++ "/google_token.pickle")))
         else ret tt) w
    = (Ok tt, without_tokens true false w, out).
Proof.
  intros Hdir. destruct w as [google adobe config cw tw now]. cbn in Hdir. subst tw.
  unfold bind, os_path_exists, os_remove, print, ret, without_tokens.
  cbn [google_token_pickle adobe_token_json config_json config_writable
       tokens_dir_writable clock negb].
  change (String.eqb (tokens_dir +++ "/google_token.pickle") google_token_path) with true.
  change (String.eqb (tokens_dir +++ "/google_token.pickle") adobe_token_path) with false.
  cbv iota. destruct google; cbn [fst snd]; eexists; reflexivity.
Qed.

Lemma clear_adobe (w : World) :
  tokens_dir_writable w = true ->
  exists out,
    bind (os_path_exists (tokens_dir +++ "/adobe_token.json"))
      (fun found : bool =>
         if found
         then bind (os_remove (tokens_dir +++ "/adobe_token.json"))
                (fun _ => print (Removed (tokens_dir +++ "/adobe_token.json")))
         else ret tt) w
    = (Ok tt, without_tokens false true w, out).
Proof.
  intros Hdir. destruct w as [google adobe config cw tw now]. cbn in Hdir. subst tw.
  unfold bind, os_path_exists, os_remove, print, ret, without_tokens.
  cbn [google_token_pickle adobe_token_json config_json config_writable
       tokens_dir_writable clock negb].
  change (String.eqb (tokens_dir +++ "/adobe_token.json") google_token_path) with false.
  change (String.eqb (tokens_dir +++ "/adobe_token.json") adobe_token_path) with true.
  cbv iota. destruct adobe as [| |d]; cbn [fst snd]; eexists; reflexivity.
Qed.

Lemma without_tokens_none (w : World) : without_tokens false false w = w.
Proof. destruct w. reflexivity. Qed.

Lemma clear_tokens_run (service : option string) (w : World) :
  tokens_dir_writable w = true ->
  exists out,
    clear_tokens service w
    = (Ok tt, without_tokens (clears service "google") (clears service "adobe") w, out).
Proof.
  intros Hdir. unfold clear_tokens, clears.
  assert (Hboth : exists out,
             for_each [tokens_dir +++ "/google_token.pickle";
                       tokens_dir +++ "/adobe_token.json"]
               (fun file_path =>
                  bind (os_path_exists file_path)
                    (fun found : bool =>
                       if found
                       then bind (os_remove file_path)
                              (fun _ => print (Removed file_path))
                       else ret tt)) w
             = (Ok tt, without_tokens true true w, out)).
  { destruct (clear_google w Hdir) as (o1 & H1).
    destruct (clear_adobe (without_tokens true false w) Hdir) as (o2 & H2).
    cbn [for_each].
    rewrite (PyFacts.bind_run _ _ _ _ _ _ H1).
    rewrite (PyFacts.bind_run _ _ _ _ _ _ H2).
    unfold ret, result, world, output. cbn [fst snd]. eexists. reflexivity. }
  destruct service as [s|]; cbn [PyStr.truthy dict_get negb orb]; [|exact Hboth].
  destruct (String.eqb s EmptyString) eqn:Hs; cbn [negb orb]; [exact Hboth|].
  destruct (String.eqb s "google") eqn:Hg.
  - apply String.eqb_eq in Hg. subst s.
    change (String.eqb "google" "adobe") with false.
    destruct (clear_google w Hdir) as (o1 & H1).
    cbn [for_each]. rewrite (PyFacts.bind_run _ _ _ _ _ _ H1).
    unfold ret, result, world, output. cbn [fst snd]. eexists. reflexivity.
  - destruct (String.eqb s "adobe") eqn:Ha.
    + destruct (clear_adobe w Hdir) as (o1 & H1).
      cbn [for_each]. rewrite (PyFacts.bind_run _ _ _ _ _ _ H1).
      unfold ret, result, world, output. cbn [fst snd]. eexists. reflexivity.
    + cbn [for_each]. rewrite without_tokens_none. eexists. reflexivity.
Qed.

(** X22: [clear_tokens] removes the token of the service named, and both
    tokens when none is named, also when the name is the empty string;
    for any other name it removes nothing.  Afterwards
    [is_authenticated] is [False] for a service whose token was to be
    cleared and answers as before for the other; the configuration is left
    alone.  (The files of [tokens/] can be removed.) *)
Theorem clear_tokens_then_not_authenticated
    (service : option string) (name : string) (w : World) :
  tokens_dir_writable w = true ->
  name = "google" \/ name = "adobe" ->
  let cleared := clear_tokens service w in
  result cleared = Ok tt /\
  config_json (world cleared) = config_json w /\
  result (is_authenticated name (world cleared))
  = (if clears service name then Ok false else result (is_authenticated name w)).
Proof.
  intros Hdir Hname. cbv zeta.
  destruct (clear_tokens_run service w Hdir) as (out & Hrun). rewrite Hrun.
  unfold result at 1, world. cbn [fst snd].
  split; [reflexivity|]. split; [reflexivity|].
  destruct Hname as [-> | ->].
  - rewrite !is_authenticated_google. unfold result. cbn [fst snd].
    unfold without_tokens. cbn [google_token_pickle].
    destruct (clears service "google"); reflexivity.
  - rewrite !is_authenticated_adobe. unfold result. cbn [fst snd].
    unfold without_tokens. cbn [adobe_token_json clock].
    destruct (clears service "adobe"); reflexivity.
Qed.

Lemma clear_tokens_then_not_authenticated_witness :
  let cleared := clear_tokens (Some EmptyString) example_world in
  result cleared = Ok tt /\
  config_json (world cleared) = config_json example_world /\
  result (is_authenticated "adobe" (world cleared))
  = (if clears (Some EmptyString) "adobe" then Ok false
     else result (is_authenticated "adobe" example_world)).
Proof.
  apply (clear_tokens_then_not_authenticated (Some EmptyString) "adobe" example_world).
  - reflexivity.
  - right. reflexivity.
Defined.

(** X23: the manager and the Adobe client agree in one direction.  When
    a client just built finds the stored token usable (it loads, has an
    access token, and expires more than five minutes from now), then
    [is_authenticated('adobe')] is [True] for the same file at the same
    time.  The manager does not look at the access token, so the converse
    fails. *)
Theorem stored_token_usable_implies_authenticated
    (w : Auth.World) (google : bool) (config : ConfigFile) :
  Auth.token_expires (Auth.self w) = None ->
  result (stored_token_usable w) = Ok true ->
  is_authenticated "adobe" (beside w google config)
  = (Ok true, beside w google config, []).
Proof.
  intros Hfresh Husable.
  rewrite is_authenticated_adobe. unfold beside at 1 2.
  cbn [adobe_token_json clock].
  assert (Hvalid : adobe_token_valid (Auth.token_file w) (Auth.clock w) = true);
    [|rewrite Hvalid; reflexivity].
  assert (Hform : result (stored_token_usable w)
                  = Ok (match Auth.token_file w with
                        | Auth.Stored d =>
                            PyStr.truthy (Auth.td_access_token d)
                            && adobe_token_valid (Auth.token_file w) (Auth.clock w)
                        | _ => false
                        end)).
  { destruct w as [s file dw code ps now].
    destruct s as [cid secret uri access refresh expires].
    cbn in Hfresh. subst expires. cbn [Auth.token_file Auth.clock].
    destruct file as [| |[stored_access stored_refresh stored_expires stored_type]];
      [reflexivity | reflexivity |].
    cbn [Auth.td_access_token adobe_token_valid Auth.td_expires_at].
    unfold stored_token_usable, Auth._load_tokens, Auth._is_token_valid,
      bind, try_except, get, ret, raise, print, Auth.get_self, Auth.modify_self,
      Auth.datetime_now, result.
    cbn [Auth.token_file Auth.td_access_token Auth.td_refresh_token Auth.td_expires_at
         fst snd].
    destruct stored_expires as [| |expires_at];
      destruct (PyStr.truthy stored_access) eqn:Haccess;
      repeat (progress
                (cbn [fst snd Auth.set_self Auth.set_tokens Auth.set_token_expires
                      Auth.self Auth.access_token Auth.token_expires Auth.clock
                      negb andb app];
                 rewrite ?Haccess));
      reflexivity. }
  rewrite Hform in Husable. injection Husable as Husable.
  destruct (Auth.token_file w) as [| |d]; try discriminate Husable.
  apply andb_true_iff in Husable. exact (proj2 Husable).
Qed.

Lemma stored_token_usable_implies_authenticated_witness :
  is_authenticated "adobe"
    (beside (Auth.world_with_stored_token 3600000000 0) false NoConfig)
  = (Ok true, beside (Auth.world_with_stored_token 3600000000 0) false NoConfig, []).
Proof.
  apply (stored_token_usable_implies_authenticated
           (Auth.world_with_stored_token 3600000000 0) false NoConfig);
    reflexivity.
Defined.

(** A token file without an access token: authenticated for the manager,
    of no use to the client. *)
Example authenticated_without_access_token :
  let w := {| Auth.self := Auth.self (Auth.world_with_stored_token 0 0);
              Auth.token_file :=
                Auth.Stored {| Auth.td_access_token := None;
                               Auth.td_refresh_token := None;
                               Auth.td_expires_at := Auth.ExpTime 3600000000;
                               Auth.td_token_type := None |};
              Auth.disk_writable := true; Auth.auth_code_txt := None;
              Auth.posts := []; Auth.clock := 0 |} in
  result (is_authenticated "adobe" (beside w false NoConfig)) = Ok true /\
  result (stored_token_usable w) = Ok false.
Proof. split; reflexivity. Qed.

End TokenManagerFacts.

(** ** The album selection loop *)

Module SelectionFacts.
Import Py Outcome OutcomeFacts Selection.
Local Open Scope Z_scope.

Lemma post_lift {A} (m : Albums.M A) (Q : A -> Prop) : post m Q -> post (lift m) Q.
Proof.
  intros Hm w a w' out Hrun. unfold lift in Hrun.
  destruct (m (sent w)) as [[r sent'] o] eqn:Hlisting.
  injection Hrun as -> _ _. exact (Hm _ _ _ _ Hlisting).
Qed.

Lemma list_albums_identified
    (env : Env) (limit : option Z) (offset : Z) (next_link : option string) :
  post (list_albums env limit offset next_link)
       (fun fetched =>
          Forall (fun album => Albums.truthy (Albums.id album) = true) (fst fetched)).
Proof.
  unfold list_albums.
  apply (post_bind _ _ (fun _ => True)); [apply post_any | intros s _].
  apply post_lift. intros w a w' out Hrun.
  exact (proj1 (AlbumRecordFacts.list_albums_page _ _ _ _ _ _ _ _ _ Hrun)).
Qed.

(** *** The stack of pages *)

Lemma stacked_app (from : Z) (l1 l2 : list (Z * option string)) :
  stacked from (l1 ++ l2)
  <-> stacked from l1 /\
      stacked (from + display_page_size * Z.of_nat (List.length l1)) l2.
Proof.
  revert from. induction l1 as [|[offset link] l1 IH]; intros from.
  - cbn [app stacked List.length]. rewrite Z.mul_0_r, Z.add_0_r. tauto.
  - cbn [app stacked List.length]. rewrite IH.
    replace (from + display_page_size + display_page_size * Z.of_nat (List.length l1))
      with (from + display_page_size * Z.of_nat (S (List.length l1))) by lia.
    tauto.
Qed.

Lemma popped (states below : list (Z * option string)) (top : Z * option string) :
  rev states = top :: below -> states = rev below ++ [top].
Proof.
  intros Hrev. rewrite <- (rev_involutive states), Hrev. reflexivity.
Qed.

Section Turns.
Variable env : Env.

(** Steps of a turn that leave the loop variables as they are. *)
Ltac same p Hp :=
  repeat first
    [ apply post_raise
    | apply post_ret; exact Hp
    | apply post_ret; exact I
    | apply (post_bind _ _ (fun _ => True)); [apply post_any | intros ? _] ].

(** X24: the page offset and the stack of the selection loop stay in
    step.  If, at the start of a turn, the stack holds the offsets
    0, 25, 50, ... of the pages left behind, each with the link that was
    followed from it, and the offset of the page shown is 25 times the
    height of the stack, then the same holds when the loop goes round
    again, whatever the user enters and whatever the catalog answers. *)
Theorem turn_keeps_pages_in_step (p : Pager) :
  paged p -> post (turn env p) (carried paged).
Proof.
  intros Hp. pose proof Hp as (Hstack & Hoffset). unfold turn.
  apply (post_bind _ _ (fun _ => True)); [apply post_any | intros _ _].
  apply (post_bind _ _ (fun _ => True)); [apply post_any | intros user_input _].
  destruct (String.eqb user_input "p").
  { destruct (rev (previous_page_states p)) as [|[prev_offset prev_next_url] below]
      eqn:Hrev; [same p Hp|].
    apply popped in Hrev. rewrite Hrev in Hstack, Hoffset.
    apply stacked_app in Hstack. destruct Hstack as (Hbelow & Htop & _ & _).
    apply (post_bind _ _ (fun _ => True)); [apply post_any | intros fetched _].
    apply post_ret. split; cbn [previous_page_states current_api_offset];
      [exact Hbelow | lia]. }
  destruct (String.eqb user_input "n").
  { destruct (PyStr.truthy (next_api_url p)) eqn:Hnext; [|same p Hp].
    apply (post_bind _ _ (fun _ => True)); [apply post_any | intros fetched _].
    apply post_ret. split; cbn [previous_page_states current_api_offset].
    - apply stacked_app. split; [exact Hstack|].
      cbn [stacked]. repeat split; [lia | exact Hnext].
    - rewrite length_app, Hoffset. cbn [List.length]. unfold display_page_size. lia. }
  destruct (py_int env user_input) as [n|]; [|same p Hp].
  destruct ((0 <=? n - 1) && (n - 1 <? Z.of_nat (List.length (current_page_albums p))));
    [|same p Hp].
  destruct (nth_error (current_page_albums p) (Z.to_nat (n - 1))); same p Hp.
Qed.

(** A turn hands on albums with ids, and returns one of them. *)
Lemma turn_identified (p : Pager) :
  identified p ->
  post (turn env p)
       (fun t =>
          match t with
          | Continue p' => identified p'
          | Return (SelectedAlbum album_id _ _) => Albums.truthy album_id = true
          | Return NothingSelected => True
          end).
Proof.
  intros Hp. unfold turn.
  apply (post_bind _ _ (fun _ => True)); [apply post_any | intros _ _].
  apply (post_bind _ _ (fun _ => True)); [apply post_any | intros user_input _].
  destruct (String.eqb user_input "p").
  { destruct (rev (previous_page_states p)) as [|[prev_offset prev_next_url] below];
      [same p Hp|].
    apply (post_bind _ _ _ _ (list_albums_identified env _ _ _)).
    intros fetched Hfetched. apply post_ret. exact Hfetched. }
  destruct (String.eqb user_input "n").
  { destruct (PyStr.truthy (next_api_url p)); [|same p Hp].
    apply (post_bind _ _ _ _ (list_albums_identified env _ _ _)).
    intros fetched Hfetched. apply post_ret. exact Hfetched. }
  destruct (py_int env user_input) as [n|]; [|same p Hp].
  destruct ((0 <=? n - 1) && (n - 1 <? Z.of_nat (List.length (current_page_albums p))));
    [|same p Hp].
  destruct (nth_error (current_page_albums p) (Z.to_nat (n - 1)))
    as [selected_album|] eqn:Hnth; [|apply post_raise].
  apply (post_bind _ _ (fun _ => True)); [apply post_any | intros s _].
  apply (post_bind _ _ (fun _ => True)); [apply post_any | intros _ _].
  apply post_ret.
  unfold identified in Hp. rewrite Forall_forall in Hp.
  apply Hp. eapply nth_error_In. exact Hnth.
Qed.

Lemma selection_loop_identified (fuel : nat) :
  forall p,
    identified p ->
    post (selection_loop env fuel p)
         (fun selected =>
            match selected with
            | Some (SelectedAlbum album_id _ _) => Albums.truthy album_id = true
            | _ => True
            end).
Proof.
  induction fuel as [|fuel IH]; intros p Hp; cbn [selection_loop].
  - apply post_ret. exact I.
  - apply (post_bind _ _ _ _ (turn_identified p Hp)).
    intros [p'|[|album_id album_name catalog]] Ht.
    + apply IH. exact Ht.
    + apply post_ret. exact I.
    + apply post_ret. exact Ht.
Qed.

Lemma select_album_identified (auth_headers : option Http.Headers) (fuel : nat) :
  post (select_album env auth_headers fuel)
       (fun selected =>
          match selected with
          | Some (SelectedAlbum album_id _ _) => Albums.truthy album_id = true
          | _ => True
          end).
Proof.
  unfold select_album.
  apply (post_bind _ _ (fun _ => True)); [apply post_any | intros _ _].
  apply (post_bind _ _ (fun _ => True)); [apply post_any | intros _ _].
  apply (post_bind _ _ (fun _ => True)); [apply post_any | intros found _].
  destruct (negb found).
  { apply (post_bind _ _ (fun _ => True)); [apply post_any | intros _ _].
    apply post_ret. exact I. }
  apply (post_bind _ _ _ _ (list_albums_identified env _ _ _)).
  intros fetched Hfetched.
  destruct (fst fetched) as [|album albums] eqn:Hpage.
  { apply (post_bind _ _ (fun _ => True)); [apply post_any | intros _ _].
    apply post_ret. exact I. }
  apply selection_loop_identified. unfold identified.
  cbn [current_page_albums]. exact Hfetched.
Qed.

(** X25: step 3 of [main] never takes its "No album selected" exit.
    [select_album] hands back either the pair [(None, None)], which the
    unpacking into three names rejects with a [ValueError], or the triple
    of an album taken from a listed page, whose id is truthy because
    [list_albums] drops the resources without one. *)
Theorem main_step3_never_exits (auth_headers : option Http.Headers) (fuel : nat) :
  post (main_step3 env auth_headers fuel)
       (fun outcome =>
          match outcome with
          | Some Exited => False
          | Some (CannotUnpack got) => got = 2%nat
          | Some (Proceed album_id _ _) => Albums.truthy album_id = true
          | None => True
          end).
Proof.
  unfold main_step3.
  apply (post_bind _ _ (fun _ => True)); [apply post_any | intros _ _].
  apply (post_bind _ _ (fun _ => True)); [apply post_any | intros _ _].
  apply (post_bind _ _ (fun _ => True)); [apply post_any | intros _ _].
  apply (post_bind _ _ _ _ (select_album_identified auth_headers fuel)).
  intros [[|album_id album_name catalogue_id]|] Hselected.
  - apply post_ret. reflexivity.
  - rewrite Hselected. cbn [negb]. apply post_ret. exact Hselected.
  - apply post_ret. exact I.
Qed.

End Turns.





Lemma turn_keeps_pages_in_step_witness :
  post (turn first_choice_env
          {| current_page_albums := [];
             next_api_url := Some "https://lr.adobe.io/v2/catalogs/c/albums?after=x"%string;
             previous_page_states :=
               [(0, Some "https://lr.adobe.io/v2/catalogs/c/albums?after=w"%string)];
             current_api_offset := 25 |})
       (carried paged).
Proof.
  apply (turn_keeps_pages_in_step first_choice_env).
  split; [|reflexivity]. cbn [stacked previous_page_states]. repeat split.
Defined.

(** With a catalog of one page and a user who takes the first choice, step
    3 goes on with the first album. *)
Example main_step3_proceeds :
  result (main_step3 first_choice_env None 1 new_world)
  = Ok (Some (Proceed (Albums.JStr "a1") (Albums.JStr "Unnamed Album")
                (Albums.JStr "catalog"))).
Proof. reflexivity. Qed.

End SelectionFacts.

(** ** Google Drive authentication *)

Module GoogleAuthFacts.
Import Py Outcome OutcomeFacts GoogleAuth.


(** *** Routines that return while the token file can be written *)

Lemma keeps_writable_bind {A B} (m : M A) (k : A -> M B) :
  keeps_writable m -> (forall a, keeps_writable (k a)) -> keeps_writable (bind m k).
Proof.
  intros Hm Hk w. specialize (Hm w). unfold bind, world in *.
  destruct (m w) as [[[a|e] w1] o1]; cbn [fst snd] in *; [|exact Hm].
  specialize (Hk a w1). unfold world in Hk.
  destruct (k a w1) as [[r w2] o2]; cbn [fst snd] in *. congruence.
Qed.

Lemma keeps_writable_prim {A} (m : M A) :
  (forall w, token_writable (world (m w)) = token_writable w) -> keeps_writable m.
Proof. intros H. exact H. Qed.

Ltac writable :=
  repeat first
    [ apply keeps_writable_bind; [|intros ?]
    | match goal with
      | |- keeps_writable (if ?b then _ else _) => destruct b
      | |- keeps_writable (match ?x with _ => _ end) => destruct x
      end
    | (apply keeps_writable_prim; intros ?;
       unfold credentials_refresh, print, ret, raise, get, get_self, set_credentials,
         set_service, pickle_load, pickle_dump;
       repeat match goal with
              | |- context [match ?x with _ => _ end] => destruct x eqn:?
              | |- context [if ?x then _ else _] => destruct x eqn:?
              end;
       unfold world; cbn [fst snd token_writable];
       first [reflexivity | assumption]) ].










(** The consent flow: it never raises, leaves the service alone, and
    returns [True] only with the new credentials pickled. *)
Lemma _do_oauth_flow_run (env : Env) (w : World) :
  exists ok w' out,
    _do_oauth_flow env w = (Ok ok, w', out) /\
    service (self w') = service (self w) /\
    (ok = true ->
     exists c,
       run_local_server env = Some c /\
       credentials_file w = true /\
       token_file w' = Pickled c /\
       credentials (self w') = Some c).
Proof.
  unfold _do_oauth_flow, bind, try_except, get, print, ret, raise, set_credentials,
    pickle_dump.
  destruct (credentials_file w) eqn:Hsecrets; cbn [negb fst snd].
  2:{ do 3 eexists. split; [reflexivity|]. split; [reflexivity | discriminate]. }
  destruct (run_local_server env) as [c|] eqn:Hflow; cbn [fst snd].
  2:{ do 3 eexists. split; [reflexivity|]. split; [reflexivity | discriminate]. }
  cbn [token_writable]. destruct (token_writable w); cbn [fst snd].
  - do 3 eexists. split; [reflexivity|]. split; [reflexivity|].
    intros _. exists c. repeat split.
  - do 3 eexists. split; [reflexivity|]. split; [reflexivity | discriminate].
Qed.

(** X29: on a first run, with no token file and no credentials held,
    [authenticate] never raises and never builds the service: it returns
    what the consent flow returns.  When that is [True], the new
    credentials are held and pickled, but [self.service] is still what it
    was, [None] for an instance just built. *)
Theorem authenticate_first_run_builds_no_service (env : Env) (w : World) :
  token_file w = NoPickle ->
  credentials (self w) = None ->
  let run := authenticate env w in
  exists ok : bool,
    result run = Ok ok /\
    service (self (world run)) = service (self w) /\
    (ok = true ->
     exists c,
       run_local_server env = Some c /\
       token_file (world run) = Pickled c /\
       credentials (self (world run)) = Some c).
Proof.
  intros Hfile Hheld. cbv zeta.
  destruct (_do_oauth_flow_run env w) as (ok & w' & out & Hflow & Hservice & Htrue).
  assert (Hrun : exists out', authenticate env w = (Ok ok, w', out')).
  { eexists. unfold authenticate.
    eapply bind_step; [reflexivity|].
    eapply bind_step; [reflexivity|].
    cbv beta. rewrite Hfile.
    eapply bind_step; [reflexivity|].
    eapply bind_step; [reflexivity|].
    cbv beta. rewrite Hheld.
    eapply bind_step.
    - eapply bind_step; [exact Hflow | reflexivity].
    - reflexivity. }
  destruct Hrun as (out' & Hrun). rewrite Hrun.
  exists ok. unfold result, world. cbn [fst snd].
  split; [reflexivity|]. split; [exact Hservice|].
  intros Hok. destruct (Htrue Hok) as (c & Hc & _ & Hpickled & Hnow).
  exists c. repeat split; assumption.
Qed.

Lemma authenticate_first_run_builds_no_service_witness :
  let run := authenticate consenting_env first_run in
  exists ok : bool,
    result run = Ok ok /\
    service (self (world run)) = service (self first_run) /\
    (ok = true ->
     exists c,
       run_local_server consenting_env = Some c /\
       token_file (world run) = Pickled c /\
       credentials (self (world run)) = Some c).
Proof.
  apply (authenticate_first_run_builds_no_service consenting_env first_run);
    reflexivity.
Defined.

(** On a first run that goes well the call returns [True] and there is
    no service. *)
Example authenticate_first_run_succeeds_without_service :
  result (authenticate consenting_env first_run) = Ok true /\
  service (self (world (authenticate consenting_env first_run))) = None.
Proof. split; reflexivity. Qed.

(** X30: with valid credentials in the token file and no service yet,
    [get_service] authenticates from the file: it builds the service over
    the stored credentials and returns it, without a consent flow and
    without writing the file.  This is how the service comes about after a
    first run: by the second call of [authenticate]. *)
Theorem get_service_builds_from_stored_token (env : Env) (w : World) (c : Credentials) :
  service (self w) = None ->
  token_file w = Pickled c ->
  valid c = true ->
  build env c = true ->
  get_service env w
  = (Ok (Some c),
     {| self := {| credentials := Some c; service := Some c |};
        token_file := Pickled c;
        token_writable := token_writable w;
        credentials_file := credentials_file w |},
     [Authenticating; FoundExistingToken; AuthenticationSuccessful]).
Proof.
  intros Hservice Hfile Hvalid Hbuild.
  destruct w as [[held built] file writable secrets].
  cbn in Hservice, Hfile. subst built file.
  cbn [token_writable credentials_file].
  assert (Hrun : authenticate env
                   {| self := {| credentials := held; service := None |};
                      token_file := Pickled c; token_writable := writable;
                      credentials_file := secrets |}
                 = (Ok true,
                    {| self := {| credentials := Some c; service := Some c |};
                       token_file := Pickled c; token_writable := writable;
                       credentials_file := secrets |},
                    [Authenticating; FoundExistingToken; AuthenticationSuccessful])).
  { unfold authenticate.
    eapply (bind_step _ _ _ _ _ _ _ [Authenticating] _); [reflexivity|].
    eapply (bind_step _ _ _ _ _ _ _ [] _); [reflexivity|].
    cbv beta. cbn [token_file].
    eapply (bind_step _ _ _ _ _ _ _ [FoundExistingToken] _); [reflexivity|].
    eapply (bind_step _ _ _ _ _ _ _ [] _); [reflexivity|].
    cbv beta. cbn [credentials self]. rewrite Hvalid. cbn [negb].
    eapply (bind_step _ _ _ _ _ _ _ [] _); [reflexivity|].
    eapply (bind_step _ _ _ _ _ _ _ [] _); [reflexivity|].
    cbv beta. cbn [credentials self]. rewrite Hbuild.
    reflexivity. }
  unfold get_service.
  eapply (bind_step _ _ _ _ _ _ _ [] _); [reflexivity|].
  cbn [service self].
  rewrite (PyFacts.bind_run _ _ _ _ _ _ Hrun). cbn [negb].
  unfold bind, get_self, ret, result, world, output.
  cbn [fst snd self service app]. reflexivity.
Qed.

Lemma get_service_builds_from_stored_token_witness :
  let w := world (authenticate consenting_env first_run) in
  get_service consenting_env w
  = (Ok (Some fresh_credentials),
     {| self := {| credentials := Some fresh_credentials;
                   service := Some fresh_credentials |};
        token_file := Pickled fresh_credentials;
        token_writable := token_writable w;
        credentials_file := credentials_file w |},
     [Authenticating; FoundExistingToken; AuthenticationSuccessful]).
Proof.
  apply (get_service_builds_from_stored_token consenting_env
           (world (authenticate consenting_env first_run)) fresh_credentials);
    reflexivity.
Defined.

End GoogleAuthFacts.
